(** * fly-japan: a shallow embedding of [main.py]

    The script enumerates round-trip itineraries, asks a remote flight-search
    service for offers, and writes the offers to a CSV file.  This file
    embeds the script's functions and states the properties of its
    specification over them.

    Python objects decoded from JSON are values of [pyobj]; exceptions are an
    explicit result ([outcome]); mutation of [self] and printing are threaded
    through a small state-and-exception monad; binary64 arithmetic is the
    IEEE 754 specification of the Standard Library ([SpecFloat]). *)

From Stdlib Require Import ZArith List String Ascii Bool Lia.
From Stdlib Require Import Floats.SpecFloat.
Import ListNotations.

Local Open Scope string_scope.
Local Open Scope Z_scope.
Set Warnings "-register-all".

(** ** Python values and exceptions *)

(** What [json.loads] can return, and what the script stores and passes
    around.  A dict is an association list in insertion order; [assoc] takes
    the first binding of a key. *)
Inductive pyobj : Type :=
| PNone
| PBool (b : bool)
| PInt (z : Z)
| PFloat (f : spec_float)
| PStr (s : string)
| PList (items : list pyobj)
| PDict (kvs : list (string * pyobj)).

(** The exceptions the modelled code can meet; every one of them is a
    subclass of Python's [Exception]. *)
Inductive exn : Type :=
| KeyError (key : string)
| TypeError
| ZeroDivisionError
| OverflowError
| RequestException            (* transport failure inside requests.post *)
| HTTPError (status : Z)      (* response.raise_for_status() *)
| JSONDecodeError             (* json.loads *)
| OSError.                    (* open / write *)

Inductive outcome (A : Type) : Type :=
| Return (a : A)
| Raise (e : exn).
Arguments Return {A} a.
Arguments Raise {A} e.

Definition is_Exception (e : exn) : bool := true.

(** *** Pure code that may raise *)
Module Exc.
Definition bind {A B} (m : outcome A) (k : A -> outcome B) : outcome B :=
  match m with
  | Return a => k a
  | Raise e => Raise e
  end.

(** A list comprehension [[f(i) for i in xs]]: left to right, the first
    exception aborts the whole comprehension. *)
Fixpoint comprehension {A B} (f : A -> outcome B) (xs : list A)
  : outcome (list B) :=
  match xs with
  | [] => Return []
  | x :: rest =>
      bind (f x) (fun y =>
      bind (comprehension f rest) (fun ys => Return (y :: ys)))
  end.
End Exc.

Notation "x <-? m ;; k" := (Exc.bind m (fun x => k))
  (at level 61, m at next level, right associativity).

Fixpoint assoc (k : string) (kvs : list (string * pyobj)) : option pyobj :=
  match kvs with
  | [] => None
  | (k', v) :: rest => if String.eqb k k' then Some v else assoc k rest
  end.

(** [o[k]] for a string key [k]. *)
Definition getitem (o : pyobj) (k : string) : outcome pyobj :=
  match o with
  | PDict kvs =>
      match assoc k kvs with
      | Some v => Return v
      | None => Raise (KeyError k)
      end
  | _ => Raise TypeError
  end.

Fixpoint chars (s : string) : list pyobj :=
  match s with
  | EmptyString => []
  | String c rest => PStr (String c EmptyString) :: chars rest
  end.

(** [for i in o]: the items a [for] clause walks through. *)
Definition iterate (o : pyobj) : outcome (list pyobj) :=
  match o with
  | PList items => Return items
  | PDict kvs => Return (map (fun kv => PStr (fst kv)) kvs)
  | PStr s => Return (chars s)
  | _ => Raise TypeError
  end.

(** ** Python floats: IEEE 754 binary64 *)
Module PyFloat.
Definition prec : Z := 53.
Definition emax : Z := 1024.

Definition div : spec_float -> spec_float -> spec_float := SFdiv prec emax.

(** The integer [z] as an exact (not normalised) binary fraction. *)
Definition exact (z : Z) : spec_float :=
  match z with
  | Z0 => S754_zero false
  | Zpos m => S754_finite false m 0
  | Zneg m => S754_finite true m 0
  end.

(** The double nearest to the integer [z]. *)
Definition of_Z (z : Z) : spec_float := binary_normalize prec emax z 0 false.

Definition is_infinite (x : spec_float) : bool :=
  match x with
  | S754_infinity _ => true
  | _ => false
  end.

Definition is_zero (x : spec_float) : bool :=
  match x with
  | S754_zero _ => true
  | _ => false
  end.

(** [float(z)] as the interpreter converts an int operand. *)
Definition of_int (z : Z) : outcome spec_float :=
  let x := of_Z z in
  if is_infinite x then Raise OverflowError else Return x.

(** [a / b] on two ints (CPython's [long_true_divide]): the correctly
    rounded quotient.  When both operands are below [2^53] in magnitude the
    interpreter divides their exact doubles and returns the quotient
    unchecked; otherwise it rounds the exact quotient itself and raises
    [OverflowError] when that is out of range. *)
Definition int_truediv (a b : Z) : outcome spec_float :=
  if b =? 0 then Raise ZeroDivisionError
  else if a =? 0 then Return (S754_zero (b <? 0))
  else if (Z.abs a <? 2 ^ 53) && (Z.abs b <? 2 ^ 53)
    then Return (div (of_Z a) (of_Z b))
    else
      let q := div (exact a) (exact b) in
      if is_infinite q then Raise OverflowError else Return q.

(** [x / y] on two floats. *)
Definition float_truediv (x y : spec_float) : outcome spec_float :=
  if is_zero y then Raise ZeroDivisionError else Return (div x y).

(** The integer nearest to [n / d] for [d > 0], ties to the even one. *)
Definition div_half_even (n d : Z) : Z :=
  let q := n / d in
  match 2 * (n mod d) ?= d with
  | Lt => q
  | Gt => q + 1
  | Eq => if Z.even q then q else q + 1
  end.

(** [round(x, ndigits)] on a float, for [ndigits >= 0] (CPython's
    [float.__round__] through [double_round]): the exact value of [x] is
    rounded half-even to [ndigits] decimal places, and the decimal obtained
    is converted back to the nearest double.  Infinities and NaN round to
    themselves, and so does every float once [ndigits] exceeds 323. *)
Definition round (x : spec_float) (ndigits : N) : spec_float :=
  match x with
  | S754_finite s m e =>
      if (323 <? ndigits)%N then x
      else
        let p := 10 ^ Z.of_N ndigits in
        let k := div_half_even (Zpos m * p * 2 ^ Z.max e 0) (2 ^ Z.max (- e) 0) in
        match k with
        | Zpos km => div (S754_finite s km 0) (exact p)
        | _ => S754_zero s
        end
  | _ => x
  end.
End PyFloat.

(** [x / d] where [d] is an int literal, by the type of [x]. *)
Definition truediv_int (x : pyobj) (d : Z) : outcome spec_float :=
  match x with
  | PInt a => PyFloat.int_truediv a d
  | PBool b => PyFloat.int_truediv (if b then 1 else 0) d
  | PFloat f => y <-? PyFloat.of_int d ;; PyFloat.float_truediv f y
  | _ => Raise TypeError
  end.

(** ** Calendar dates and [strftime] *)

Record date : Type := { year : Z; month : Z; day : Z }.

Definition is_leap (y : Z) : bool :=
  (y mod 4 =? 0) && (negb (y mod 100 =? 0) || (y mod 400 =? 0)).

Definition days_in_month (y m : Z) : Z :=
  match m with
  | 2 => if is_leap y then 29 else 28
  | 4 | 6 | 9 | 11 => 30
  | _ => 31
  end.

(** The values [datetime.date] accepts. *)
Definition valid_date (d : date) : bool :=
  (1 <=? year d) && (year d <=? 9999) &&
  (1 <=? month d) && (month d <=? 12) &&
  (1 <=? day d) && (day d <=? days_in_month (year d) (month d)).

Definition digit (n : Z) : ascii := ascii_of_nat (48 + Z.to_nat n).

Definition pad2 (n : Z) : string :=
  String (digit (n / 10)) (String (digit (n mod 10)) "").

Definition pad4 (n : Z) : string :=
  String (digit (n / 1000)) (String (digit (n / 100 mod 10)) (pad2 (n mod 100))).

(** A year in decimal as the C library writes it, without padding: one to
    four digits for the years a date can have. *)
Definition year_digits (n : Z) : string :=
  if n <? 10 then String (digit n) ""
  else if n <? 100 then pad2 n
  else if n <? 1000 then String (digit (n / 100)) (pad2 (n mod 100))
  else pad4 n.

(** One [strftime] directive: [%d] and [%m] are zero-padded to two digits,
    [%Y] is the year with century, in decimal and not padded (year 999 is
    written 999). *)
Definition directive (c : ascii) (d : date) : string :=
  if Ascii.eqb c "d" then pad2 (day d)
  else if Ascii.eqb c "m" then pad2 (month d)
  else if Ascii.eqb c "Y" then year_digits (year d)
  else if Ascii.eqb c "%" then "%"
  else String "%" (String c "").

Fixpoint strftime (d : date) (fmt : string) : string :=
  match fmt with
  | "" => ""
  | String c rest =>
      if Ascii.eqb c "%" then
        match rest with
        | String c' rest' => directive c' d ++ strftime d rest'
        | "" => "%"
        end
      else String c (strftime d rest)
  end.

(** ** The script's dataclasses *)

Record FlightItinerary : Type := {
  home_out : string;
  dest_in : string;
  dest_out : string;
  home_in : string;
  date_from : date;
  date_to : date
}.

(** The annotations [int], [float], [str] are not enforced when the script
    runs: [price], [quality] and [link] hold whatever the response held. *)
Record KiwiFlightInfo : Type := {
  price : pyobj;
  duration : spec_float;
  quality : pyobj;
  link : pyobj
}.

Record BestFlights : Type := {
  flight_plan : FlightItinerary;
  search_results : list KiwiFlightInfo
}.

Record AllOptionsForJapan : Type := {
  all_flight_plans : list BestFlights
}.

(** ** The world outside the script *)

Inductive log_line : Type :=
| Searching (fp : FlightItinerary)
| Error (e : exn)
| Written (csv_name : string).

Inductive cell : Type :=
| CStr (s : string)
| CDate (d : date)
| CFloat (f : spec_float)
| CObj (o : pyobj).

Definition row : Type := list cell.

(** Standard output and the files written so far, as lists of rows: how
    [csv.writer] quotes and separates the cells is left out. *)
Record world : Type := {
  stdout : list log_line;
  files : list (string * list row)
}.

(** What a [requests.post] call is given. *)
Record request : Type := {
  url : string;
  data : pyobj;
  headers : list (string * string)
}.

(** A response body either decodes as JSON or does not. *)
Inductive body : Type :=
| Malformed
| Json (j : pyobj).

Inductive reply : Type :=
| NoReply                              (* connection or transport failure *)
| Reply (status : Z) (text : body).

Definition network : Type := request -> reply.

(** What the operating system does to one attempt to write a file.  Under
    [WriteFails n kept] the write that carries row [n] (the header being row
    0) is refused; the rows go through a buffer, so the file is cut wherever
    the last write that went through ended, in the middle of a row as well:
    [kept] is what the file holds afterwards. *)
Inductive io_fault : Type :=
| NoFault
| OpenFails
| WriteFails (n : nat) (kept : list row).

(** *** Stateful code that may raise *)
Module Run.
Definition M (S A : Type) : Type := S -> outcome A * S.

Definition ret {S A} (a : A) : M S A := fun s => (Return a, s).

Definition raise {S A} (e : exn) : M S A := fun s => (Raise e, s).

Definition bind {S A B} (m : M S A) (k : A -> M S B) : M S B :=
  fun s =>
    match m s with
    | (Return a, s') => k a s'
    | (Raise e, s') => (Raise e, s')
    end.

Definition lift {S A} (o : outcome A) : M S A := fun s => (o, s).

(** [try: m  except Exception as e: h e]; what [m] did to the state before
    it raised stays done. *)
Definition try_except {S A} (m : M S A) (h : exn -> M S A) : M S A :=
  fun s =>
    match m s with
    | (Return a, s') => (Return a, s')
    | (Raise e, s') => if is_Exception e then h e s' else (Raise e, s')
    end.

Definition get {S} : M S S := fun s => (Return s, s).
Definition put {S} (s : S) : M S unit := fun _ => (Return tt, s).
End Run.

Notation "x <- m ;; k" := (Run.bind m (fun x => k))
  (at level 61, m at next level, right associativity).
Notation "m ;;; k" := (Run.bind m (fun _ => k))
  (at level 61, right associativity).

(** A method of [BestFlights] runs on its [self] and the world. *)
Definition method (A : Type) : Type := Run.M (BestFlights * world) A.

Definition print {S} (out : S -> world) (upd : world -> S -> S) (l : log_line)
  : Run.M S unit :=
  fun s =>
    let w := out s in
    (Return tt, upd {| stdout := stdout w ++ [l]; files := files w |} s).

Definition print_m (l : log_line) : method unit :=
  print snd (fun w s => (fst s, w)) l.

Definition print_w (l : log_line) : Run.M world unit :=
  print (fun w => w) (fun w _ => w) l.

(** ** [requests] and [json] *)

Definition post (net : network) (u : string) (d : pyobj)
    (h : list (string * string)) : outcome (Z * body) :=
  match net {| url := u; data := d; headers := h |} with
  | NoReply => Raise RequestException
  | Reply status text => Return (status, text)
  end.

(** [Response.raise_for_status] of the [requests] library raises
    [HTTPError] for a 4xx client error or a 5xx server error status, and
    returns normally for every other status. *)
Definition raise_for_status (response : Z * body) : outcome unit :=
  let status := fst response in
  if (400 <=? status) && (status <? 600) then Raise (HTTPError status)
  else Return tt.

Definition json_loads (text : body) : outcome pyobj :=
  match text with
  | Malformed => Raise JSONDecodeError
  | Json j => Return j
  end.

(** ** class BestFlights *)
Section BestFlights.
(** [config.kiwi_multi_city_key] *)
Variable kiwi_multi_city_key : string.

Definition date_to_kiwi_format (d : date) : string :=
  strftime d "%d/%m/%Y".

Definition kiwi_payload (flight_plan : FlightItinerary) : pyobj :=
  PDict
    [ ("requests",
       PList
         [ PDict
             [ ("limit", PInt 5);
               ("sort", PStr "quality");
               ("curr", PStr "USD");
               ("fly_to", PStr (dest_in flight_plan));
               ("fly_from", PStr (home_out flight_plan));
               ("date_from", PStr (date_to_kiwi_format (date_from flight_plan)));
               ("date_to", PStr (date_to_kiwi_format (date_from flight_plan)));
               ("adults", PInt 1) ];
           PDict
             [ ("limit", PInt 5);
               ("sort", PStr "quality");
               ("curr", PStr "USD");
               ("fly_to", PStr (home_in flight_plan));
               ("fly_from", PStr (dest_out flight_plan));
               ("date_from", PStr (date_to_kiwi_format (date_to flight_plan)));
               ("date_to", PStr (date_to_kiwi_format (date_to flight_plan)));
               ("adults", PInt 1) ] ]) ].

Definition kiwi_url : string :=
  "https://api.tequila.kiwi.com/v2/flights_multi".

Definition kiwi_headers : list (string * string) :=
  [ ("Content-Type", "application/json");
    ("apikey", kiwi_multi_city_key) ].

Definition get_raw_kiwi_results (net : network) (flight_plan : FlightItinerary)
  : method pyobj :=
  let payload := kiwi_payload flight_plan in
  Run.try_except
    (response <- Run.lift (post net kiwi_url payload kiwi_headers) ;;
     Run.lift (raise_for_status response) ;;;
     response_data <- Run.lift (json_loads (snd response)) ;;
     Run.ret response_data)
    (fun e => print_m (Error e) ;;; Run.ret PNone).

Definition extract_flight_info (kiwi_result : pyobj) : outcome KiwiFlightInfo :=
  price <-? getitem kiwi_result "price" ;;
  seconds <-? getitem kiwi_result "duration" ;;
  hours <-? truediv_int seconds 3600 ;;
  let duration := PyFloat.round hours 2 in
  quality <-? getitem kiwi_result "quality" ;;
  link <-? getitem kiwi_result "deep_link" ;;
  Return {| price := price; duration := duration; quality := quality; link := link |}.

(** The comprehension is evaluated in full before the attribute is
    assigned. *)
Definition set_flights (kiwi_result : pyobj) : method unit :=
  items <- Run.lift (iterate kiwi_result) ;;
  infos <- Run.lift (Exc.comprehension extract_flight_info items) ;;
  s <- Run.get ;;
  Run.put ({| flight_plan := flight_plan (fst s); search_results := infos |}, snd s).

Definition search_and_set_flights (net : network) : method pyobj :=
  Run.try_except
    (s <- Run.get ;;
     print_m (Searching (flight_plan (fst s))) ;;;
     raw_top_5_itineraries <- get_raw_kiwi_results net (flight_plan (fst s)) ;;
     set_flights raw_top_5_itineraries ;;;
     Run.ret (PBool true))
    (fun e => print_m (Error e) ;;; Run.ret PNone).

(** ** class AllOptionsForJapan *)

(** The pool's workers each run [search_and_set_flights] on one entry of
    the batch; a worker writes only to that entry, so the entries after the
    pool has shut down are those of running the searches one after another.
    The values the searches return are never collected.  [nets i] is the
    remote side as the search of entry [i] meets it. *)
Fixpoint run_searches (nets : nat -> network) (i : nat)
    (plans : list BestFlights) (w : world) : list BestFlights * world :=
  match plans with
  | [] => ([], w)
  | f :: rest =>
      let '(_, (f', w')) := search_and_set_flights (nets i) (f, w) in
      let '(rest', w'') := run_searches nets (S i) rest w' in
      (f' :: rest', w'')
  end.

Definition search_and_set_best_flights (nets : nat -> network)
    (self : AllOptionsForJapan) (w : world) : AllOptionsForJapan * world :=
  let '(plans, w') := run_searches nets 0 (all_flight_plans self) w in
  ({| all_flight_plans := plans |}, w').
End BestFlights.

(** *** Writing files *)

Fixpoint read_file (name : string) (fs : list (string * list row))
  : option (list row) :=
  match fs with
  | [] => None
  | (name', rows) :: rest =>
      if String.eqb name name' then Some rows else read_file name rest
  end.

Definition write_file (name : string) (rows : list row) (w : world) : world :=
  {| stdout := stdout w; files := (name, rows) :: files w |}.

(** [open(name, mode="w")]: the file is created, or emptied. *)
Definition open_w (fault : io_fault) (name : string) : Run.M world unit :=
  fun w =>
    match fault with
    | OpenFails => (Raise OSError, w)
    | _ => (Return tt, write_file name [] w)
    end.

Definition written (name : string) (w : world) : list row :=
  match read_file name (files w) with
  | Some rows => rows
  | None => []
  end.

Definition refuses (fault : io_fault) (already : nat) : bool :=
  match fault with
  | WriteFails n _ => Nat.eqb n already
  | _ => false
  end.

Definition left_by (fault : io_fault) (rows : list row) : list row :=
  match fault with
  | WriteFails _ kept => kept
  | _ => rows
  end.

(** [writer.writerow(r)].  A refused write raises [OSError], at this call
    or when the buffer is flushed later, at the latest when the [with] block
    closes the file; the script does nothing else in between, and the
    exception leaves [to_csv] either way. *)
Definition writerow (fault : io_fault) (name : string) (r : row)
  : Run.M world unit :=
  fun w =>
    let rows := written name w in
    if refuses fault (List.length rows)
    then (Raise OSError, write_file name (left_by fault rows) w)
    else (Return tt, write_file name (rows ++ [r]) w).

Fixpoint writerows (fault : io_fault) (name : string) (rs : list row)
  : Run.M world unit :=
  match rs with
  | [] => Run.ret tt
  | r :: rest => writerow fault name r ;;; writerows fault name rest
  end.

Definition csv_header : row :=
  [ CStr "Home Out"; CStr "Dest In"; CStr "Dest Out"; CStr "Home In";
    CStr "Date From"; CStr "Date To";
    CStr "Price"; CStr "Duration"; CStr "Quality"; CStr "Link" ].

Definition csv_rows (self : AllOptionsForJapan) : list row :=
  flat_map (fun plan =>
    flat_map (fun flight_info =>
      map (fun flight_plan =>
             [ CStr (home_out flight_plan);
               CStr (dest_in flight_plan);
               CStr (dest_out flight_plan);
               CStr (home_in flight_plan);
               CDate (date_from flight_plan);
               CDate (date_to flight_plan);
               CObj (price flight_info);
               CFloat (duration flight_info);
               CObj (quality flight_info);
               CObj (link flight_info) ])
          [flight_plan plan])
      (search_results plan))
    (all_flight_plans self).

Definition to_csv (fault : io_fault) (self : AllOptionsForJapan)
    (csv_name : string) : Run.M world pyobj :=
  open_w fault csv_name ;;;
  writerow fault csv_name csv_header ;;;
  let rows := csv_rows self in
  writerows fault csv_name rows ;;;
  print_w (Written csv_name) ;;;
  Run.ret (PInt 0).

(** ** The generator *)

Definition all_flight_options (us_ports japan_ports : list string)
    (date_from date_to : date) : list FlightItinerary :=
  flat_map (fun u_out =>
    flat_map (fun j_in =>
      flat_map (fun j_out =>
        map (fun u_in =>
               {| home_out := u_out; dest_in := j_in;
                  dest_out := j_out; home_in := u_in;
                  date_from := date_from; date_to := date_to |})
            us_ports)
        japan_ports)
      japan_ports)
    us_ports.

(** * Properties *)

(** ** Lists built by nested comprehensions *)
Section Comprehensions.
Context {A B : Type}.

Lemma flat_map_length_uniform (f : A -> list B) (c : nat) (l : list A) :
  (forall x, List.length (f x) = c) ->
  List.length (flat_map f l) = (List.length l * c)%nat.
Proof.
  intros Hc. induction l as [|x l IH]; simpl.
  - reflexivity.
  - rewrite List.length_app, Hc, IH. reflexivity.
Qed.

Lemma flat_map_nth_uniform (f : A -> list B) (c : nat) (l : list A) :
  (forall x, List.length (f x) = c) ->
  forall i j x, nth_error l i = Some x -> (j < c)%nat ->
  nth_error (flat_map f l) (i * c + j) = nth_error (f x) j.
Proof.
  intros Hc. induction l as [|y l IH]; intros i j x Hi Hj.
  - destruct i; discriminate.
  - destruct i as [|i]; simpl in *.
    + injection Hi as ->. apply nth_error_app1. rewrite Hc. exact Hj.
    + rewrite nth_error_app2 by (rewrite Hc; lia).
      rewrite Hc.
      replace (c + i * c + j - c)%nat with (i * c + j)%nat by lia.
      apply IH; assumption.
Qed.
End Comprehensions.

(** A digit below [c] over a remainder below [d] stays below [c * d]. *)
Lemma mixed_radix_lt (a b c d : nat) :
  (a < c)%nat -> (b < d)%nat -> (a * d + b < c * d)%nat.
Proof.
  intros Ha Hb.
  apply Nat.lt_le_trans with (S a * d)%nat.
  - simpl. lia.
  - apply Nat.mul_le_mono_r. lia.
Qed.

(** ** The generator: the full product, in nesting order *)
Section Generator.
Variables (us_ports japan_ports : list string) (d_from d_to : date).

Let m := List.length us_ports.
Let n := List.length japan_ports.

Definition legs_in (u_out j_in j_out : string) : list FlightItinerary :=
  map (fun u_in =>
         {| home_out := u_out; dest_in := j_in;
            dest_out := j_out; home_in := u_in;
            date_from := d_from; date_to := d_to |})
      us_ports.

Definition legs_out (u_out j_in : string) : list FlightItinerary :=
  flat_map (legs_in u_out j_in) japan_ports.

Definition legs_from (u_out : string) : list FlightItinerary :=
  flat_map (legs_out u_out) japan_ports.

Lemma all_flight_options_nest :
  all_flight_options us_ports japan_ports d_from d_to
  = flat_map legs_from us_ports.
Proof. reflexivity. Qed.

Lemma legs_in_length u_out j_in j_out :
  List.length (legs_in u_out j_in j_out) = m.
Proof. unfold legs_in. apply List.length_map. Qed.

Lemma legs_out_length u_out j_in :
  List.length (legs_out u_out j_in) = (n * m)%nat.
Proof.
  unfold legs_out.
  apply flat_map_length_uniform. intro; apply legs_in_length.
Qed.

Lemma legs_from_length u_out :
  List.length (legs_from u_out) = (n * (n * m))%nat.
Proof.
  unfold legs_from.
  apply flat_map_length_uniform. intro; apply legs_out_length.
Qed.

Lemma all_flight_options_length :
  List.length (all_flight_options us_ports japan_ports d_from d_to)
  = (m * m * n * n)%nat.
Proof.
  rewrite all_flight_options_nest.
  rewrite (flat_map_length_uniform legs_from (n * (n * m)))
    by (intro; apply legs_from_length).
  fold m. nia.
Qed.

Lemma all_flight_options_nth i j k l a1 b1 b2 a2 :
  nth_error us_ports i = Some a1 ->
  nth_error japan_ports j = Some b1 ->
  nth_error japan_ports k = Some b2 ->
  nth_error us_ports l = Some a2 ->
  nth_error (all_flight_options us_ports japan_ports d_from d_to)
            (((i * n + j) * n + k) * m + l)
  = Some {| home_out := a1; dest_in := b1; dest_out := b2; home_in := a2;
            date_from := d_from; date_to := d_to |}.
Proof.
  intros Hi Hj Hk Hl.
  assert (Hjn : (j < n)%nat) by (apply nth_error_Some; congruence).
  assert (Hkn : (k < n)%nat) by (apply nth_error_Some; congruence).
  assert (Hlm : (l < m)%nat) by (apply nth_error_Some; congruence).
  rewrite all_flight_options_nest.
  replace (((i * n + j) * n + k) * m + l)%nat
    with (i * (n * (n * m)) + (j * (n * m) + (k * m + l)))%nat by nia.
  rewrite (flat_map_nth_uniform legs_from (n * (n * m)) us_ports
             legs_from_length i _ a1 Hi)
    by (apply mixed_radix_lt; [|apply mixed_radix_lt]; assumption).
  unfold legs_from.
  rewrite (flat_map_nth_uniform (legs_out a1) (n * m) japan_ports
             (legs_out_length a1) j _ b1 Hj)
    by (apply mixed_radix_lt; assumption).
  unfold legs_out.
  rewrite (flat_map_nth_uniform (legs_in a1 b1) m japan_ports
             (legs_in_length a1 b1) k _ b2 Hk) by exact Hlm.
  unfold legs_in. rewrite nth_error_map, Hl. reflexivity.
Qed.

Lemma all_flight_options_In it :
  In it (all_flight_options us_ports japan_ports d_from d_to) <->
  In (home_out it) us_ports /\ In (dest_in it) japan_ports /\
  In (dest_out it) japan_ports /\ In (home_in it) us_ports /\
  date_from it = d_from /\ date_to it = d_to.
Proof.
  unfold all_flight_options. split.
  - intro H.
    apply in_flat_map in H as (a1 & Ha1 & H).
    apply in_flat_map in H as (b1 & Hb1 & H).
    apply in_flat_map in H as (b2 & Hb2 & H).
    apply in_map_iff in H as (a2 & <- & Ha2). simpl. tauto.
  - intros (Ha1 & Hb1 & Hb2 & Ha2 & Hf & Ht).
    apply in_flat_map. exists (home_out it). split; [assumption|].
    apply in_flat_map. exists (dest_in it). split; [assumption|].
    apply in_flat_map. exists (dest_out it). split; [assumption|].
    apply in_map_iff. exists (home_in it). split; [|assumption].
    destruct it; simpl in *; subst; reflexivity.
Qed.
End Generator.

(** C2.  For origin ports [A] (of size m) and destination ports [B] (of size
    n), [all_flight_options] returns m*m*n*n itineraries; the one at
    position ((i*n + j)*n + k)*m + l is (A[i], B[j], B[k], A[l]) with the
    given dates, which is the nesting order origin-out, dest-in, dest-out,
    origin-in; its members are exactly the quadruples over [A] and [B] with
    those dates (repetitions included); LAX against HND, NRT gives the four
    itineraries of the specification in order; an empty port list gives the
    empty list. *)
Theorem C2_all_flight_options_full_product :
  forall (A B : list string) (d_from d_to : date),
    List.length (all_flight_options A B d_from d_to)
    = (List.length A * List.length A * List.length B * List.length B)%nat
    /\ (forall i j k l a1 b1 b2 a2,
          nth_error A i = Some a1 -> nth_error B j = Some b1 ->
          nth_error B k = Some b2 -> nth_error A l = Some a2 ->
          nth_error (all_flight_options A B d_from d_to)
            (((i * List.length B + j) * List.length B + k) * List.length A + l)
          = Some {| home_out := a1; dest_in := b1; dest_out := b2;
                    home_in := a2; date_from := d_from; date_to := d_to |})
    /\ (forall it,
          In it (all_flight_options A B d_from d_to) <->
          In (home_out it) A /\ In (dest_in it) B /\
          In (dest_out it) B /\ In (home_in it) A /\
          date_from it = d_from /\ date_to it = d_to)
    /\ all_flight_options ["LAX"] ["HND"; "NRT"] d_from d_to
       = [ Build_FlightItinerary "LAX" "HND" "HND" "LAX" d_from d_to;
           Build_FlightItinerary "LAX" "HND" "NRT" "LAX" d_from d_to;
           Build_FlightItinerary "LAX" "NRT" "HND" "LAX" d_from d_to;
           Build_FlightItinerary "LAX" "NRT" "NRT" "LAX" d_from d_to ]
    /\ all_flight_options [] B d_from d_to = []
    /\ all_flight_options A [] d_from d_to = [].
Proof.
  intros A B d_from d_to.
  split; [apply all_flight_options_length|].
  split; [intros; apply all_flight_options_nth; assumption|].
  split; [intro; apply all_flight_options_In|].
  split; [reflexivity|].
  split; [reflexivity|].
  rewrite <- List.length_zero_iff_nil, all_flight_options_length.
  simpl. lia.
Qed.

Lemma C2_witness :
  nth_error
    (all_flight_options ["LAX"; "SFO"] ["HND"; "NRT"; "KIX"]
       (Build_date 2024 3 22) (Build_date 2024 4 1))
    29
  = Some (Build_FlightItinerary "SFO" "NRT" "KIX" "SFO"
            (Build_date 2024 3 22) (Build_date 2024 4 1)).
Proof.
  exact (proj1 (proj2 (C2_all_flight_options_full_product
                         ["LAX"; "SFO"] ["HND"; "NRT"; "KIX"]
                         (Build_date 2024 3 22) (Build_date 2024 4 1)))
               1%nat 1%nat 2%nat 1%nat "SFO" "NRT" "KIX" "SFO"
               eq_refl eq_refl eq_refl eq_refl).
Defined.

(** ** The request payload *)

(** Reading a decimal numeral back. *)
Definition digit_value (c : ascii) : option Z :=
  let n := Z.of_nat (nat_of_ascii c) in
  if (48 <=? n) && (n <=? 57) then Some (n - 48) else None.

Fixpoint decimal_from (acc : Z) (s : string) : option Z :=
  match s with
  | "" => Some acc
  | String c rest =>
      match digit_value c with
      | Some v => decimal_from (10 * acc + v) rest
      | None => None
      end
  end.

Definition decimal (s : string) : option Z :=
  match s with
  | "" => None
  | _ => decimal_from 0 s
  end.

(** The number of digits of a year: four from year 1000 on. *)
Definition year_width (y : Z) : nat :=
  if y <? 10 then 1 else if y <? 100 then 2 else if y <? 1000 then 3 else 4.

(** [s] is the date [d] written day/month/year: two digits, a slash, two
    digits, a slash, and the digits of the year (four of them from year 1000
    on), which read back as [d]'s day, month and year. *)
Definition day_month_year (d : date) (s : string) : Prop :=
  exists dd mm yyyy,
    s = dd ++ "/" ++ mm ++ "/" ++ yyyy /\
    String.length dd = 2%nat /\ String.length mm = 2%nat /\
    String.length yyyy = year_width (year d) /\
    decimal dd = Some (day d) /\ decimal mm = Some (month d) /\
    decimal yyyy = Some (year d).

Definition reads_back (pad : Z -> string) (k : nat) : bool :=
  match decimal (pad (Z.of_nat k)) with
  | Some v => v =? Z.of_nat k
  | None => false
  end.

Lemma reads_back_below (pad : Z -> string) (bound : Z) :
  forallb (reads_back pad) (seq 0 (Z.to_nat bound)) = true ->
  forall n, 0 <= n < bound -> decimal (pad n) = Some n.
Proof.
  intros Hall n Hn.
  rewrite forallb_forall in Hall.
  specialize (Hall (Z.to_nat n)).
  unfold reads_back in Hall.
  rewrite Z2Nat.id in Hall by lia.
  destruct (decimal (pad n)) as [v|].
  - f_equal. apply Z.eqb_eq. apply Hall. apply in_seq. lia.
  - discriminate Hall. apply in_seq. lia.
Qed.

Lemma pad2_decimal n : 0 <= n < 100 -> decimal (pad2 n) = Some n.
Proof. apply (reads_back_below pad2 100). vm_compute. reflexivity. Qed.

Lemma pad4_decimal n : 0 <= n < 10000 -> decimal (pad4 n) = Some n.
Proof. apply (reads_back_below pad4 10000). vm_compute. reflexivity. Qed.

Lemma days_in_month_le y m : days_in_month y m <= 31.
Proof.
  unfold days_in_month.
  destruct m as [|p|p]; try lia.
  destruct (is_leap y);
    repeat (destruct p as [p|p|]; try lia).
Qed.

Lemma year_digits_decimal n :
  0 <= n < 10000 -> decimal (year_digits n) = Some n.
Proof. apply (reads_back_below year_digits 10000). vm_compute. reflexivity. Qed.

Lemma year_digits_length n : String.length (year_digits n) = year_width n.
Proof.
  unfold year_digits, year_width.
  destruct (n <? 10); [reflexivity|].
  destruct (n <? 100); [reflexivity|].
  destruct (n <? 1000); reflexivity.
Qed.

Lemma append_empty_r (s : string) : s ++ "" = s.
Proof.
  induction s as [|c s IH]; simpl; [reflexivity|]. rewrite IH. reflexivity.
Qed.

Lemma date_to_kiwi_format_shape d :
  date_to_kiwi_format d
  = pad2 (day d) ++ "/" ++ pad2 (month d) ++ "/" ++ year_digits (year d).
Proof.
  transitivity (pad2 (day d) ++ "/" ++ pad2 (month d) ++ "/"
                ++ (year_digits (year d) ++ "")).
  - reflexivity.
  - rewrite append_empty_r. reflexivity.
Qed.

Lemma date_to_kiwi_format_dmy d :
  valid_date d = true -> day_month_year d (date_to_kiwi_format d).
Proof.
  unfold valid_date. intro Hv.
  repeat (apply andb_prop in Hv as [Hv ?]).
  pose proof (days_in_month_le (year d) (month d)).
  exists (pad2 (day d)), (pad2 (month d)), (year_digits (year d)).
  split; [apply date_to_kiwi_format_shape|].
  split; [reflexivity|]. split; [reflexivity|].
  split; [apply year_digits_length|].
  split; [apply pad2_decimal; lia|].
  split; [apply pad2_decimal; lia|].
  apply year_digits_decimal. lia.
Qed.

(** C3.  For every itinerary (its two dates being calendar dates), the
    payload is a dict whose "requests" entry lists exactly two leg specs.
    Leg 1 flies from origin-out to dest-in with both date bounds the depart
    date; leg 2 flies from dest-out to origin-in with both date bounds the
    return date; each leg asks for limit 5, sort "quality", currency "USD"
    and 1 adult; every date is written day/month/year. *)
Theorem C3_payload_two_legs :
  forall fp : FlightItinerary,
    valid_date (date_from fp) = true ->
    valid_date (date_to fp) = true ->
    exists leg1 leg2 depart back,
      getitem (kiwi_payload fp) "requests" = Return (PList [leg1; leg2]) /\
      getitem leg1 "fly_from" = Return (PStr (home_out fp)) /\
      getitem leg1 "fly_to" = Return (PStr (dest_in fp)) /\
      getitem leg1 "date_from" = Return (PStr depart) /\
      getitem leg1 "date_to" = Return (PStr depart) /\
      getitem leg2 "fly_from" = Return (PStr (dest_out fp)) /\
      getitem leg2 "fly_to" = Return (PStr (home_in fp)) /\
      getitem leg2 "date_from" = Return (PStr back) /\
      getitem leg2 "date_to" = Return (PStr back) /\
      depart = date_to_kiwi_format (date_from fp) /\
      back = date_to_kiwi_format (date_to fp) /\
      day_month_year (date_from fp) depart /\
      day_month_year (date_to fp) back /\
      (forall leg, In leg [leg1; leg2] ->
         getitem leg "limit" = Return (PInt 5) /\
         getitem leg "sort" = Return (PStr "quality") /\
         getitem leg "curr" = Return (PStr "USD") /\
         getitem leg "adults" = Return (PInt 1)).
Proof.
  intros fp Hfrom Hto.
  do 4 eexists.
  split; [reflexivity|].
  repeat (split; [reflexivity|]).
  split; [apply date_to_kiwi_format_dmy; exact Hfrom|].
  split; [apply date_to_kiwi_format_dmy; exact Hto|].
  intros leg [<-|[<-|[]]]; repeat split.
Qed.

Definition lax_hnd_nrt_lax : FlightItinerary :=
  {| home_out := "LAX"; dest_in := "HND"; dest_out := "NRT"; home_in := "LAX";
     date_from := {| year := 2024; month := 3; day := 22 |};
     date_to := {| year := 2024; month := 4; day := 1 |} |}.

Lemma C3_witness :
  exists leg1 leg2 depart back,
    getitem (kiwi_payload lax_hnd_nrt_lax) "requests"
    = Return (PList [leg1; leg2]) /\
    getitem leg1 "fly_from" = Return (PStr "LAX") /\
    getitem leg1 "fly_to" = Return (PStr "HND") /\
    getitem leg1 "date_from" = Return (PStr depart) /\
    getitem leg1 "date_to" = Return (PStr depart) /\
    getitem leg2 "fly_from" = Return (PStr "NRT") /\
    getitem leg2 "fly_to" = Return (PStr "LAX") /\
    getitem leg2 "date_from" = Return (PStr back) /\
    getitem leg2 "date_to" = Return (PStr back) /\
    depart = "22/03/2024" /\ back = "01/04/2024" /\
    day_month_year {| year := 2024; month := 3; day := 22 |} depart /\
    day_month_year {| year := 2024; month := 4; day := 1 |} back /\
    (forall leg, In leg [leg1; leg2] ->
       getitem leg "limit" = Return (PInt 5) /\
       getitem leg "sort" = Return (PStr "quality") /\
       getitem leg "curr" = Return (PStr "USD") /\
       getitem leg "adults" = Return (PInt 1)).
Proof.
  exact (C3_payload_two_legs lax_hnd_nrt_lax eq_refl eq_refl).
Defined.

(** ** The extractor *)
Section Extractor.
Variables (kvs : list (string * pyobj)).

(** What the extractor does on a dict that has the four fields: the only
    step that can still raise is the division. *)
Lemma extract_flight_info_fields (p s q l : pyobj) :
  assoc "price" kvs = Some p ->
  assoc "duration" kvs = Some s ->
  assoc "quality" kvs = Some q ->
  assoc "deep_link" kvs = Some l ->
  extract_flight_info (PDict kvs)
  = (hours <-? truediv_int s 3600 ;;
     Return {| price := p; duration := PyFloat.round hours 2;
               quality := q; link := l |}).
Proof.
  intros Hp Hs Hq Hl. unfold extract_flight_info, getitem.
  rewrite Hp, Hs, Hq, Hl. reflexivity.
Qed.

Lemma extract_flight_info_no_price :
  assoc "price" kvs = None ->
  extract_flight_info (PDict kvs) = Raise (KeyError "price").
Proof.
  intro H. unfold extract_flight_info, getitem. rewrite H. reflexivity.
Qed.

Lemma extract_flight_info_missing :
  assoc "price" kvs = None \/ assoc "duration" kvs = None \/
  assoc "quality" kvs = None \/ assoc "deep_link" kvs = None ->
  exists e, extract_flight_info (PDict kvs) = Raise e.
Proof.
  intro H. unfold extract_flight_info, getitem.
  destruct (assoc "price" kvs) as [p|]; simpl; [|eauto].
  destruct (assoc "duration" kvs) as [s|]; simpl; [|eauto].
  destruct (truediv_int s 3600) as [hours|e]; simpl; [|eauto].
  destruct (assoc "quality" kvs) as [q|]; simpl; [|eauto].
  destruct (assoc "deep_link" kvs) as [l|]; simpl; [|eauto].
  destruct H as [H|[H|[H|H]]]; discriminate H.
Qed.
End Extractor.

(** Seconds that a double holds exactly divide by 3600 without raising. *)
Lemma int_truediv_3600_small (a : Z) :
  Z.abs a < 2 ^ 53 ->
  PyFloat.int_truediv a 3600
  = Return (PyFloat.div (PyFloat.of_Z a) (PyFloat.of_Z 3600)).
Proof.
  intros Ha. unfold PyFloat.int_truediv.
  change (3600 =? 0) with false. cbv iota.
  destruct (Z.eqb_spec a 0) as [->|_].
  - reflexivity.
  - apply Z.ltb_lt in Ha. rewrite Ha. reflexivity.
Qed.

Definition ten_hours : spec_float := PyFloat.of_Z 10.
Definition seven_and_a_half : spec_float :=
  PyFloat.div (PyFloat.of_Z 15) (PyFloat.of_Z 2).

(** C4.  For every raw record that has the fields price, duration, quality
    and deep_link, the duration being an integer number of seconds (of a
    magnitude a double holds exactly), the extractor returns an offer whose
    duration is the seconds divided by 3600, rounded to 2 decimal places, and
    whose price, quality and link are the record's own values; the record
    with price 450, duration 36000, quality 7.5 and deep link "http://x"
    gives the offer (450, 10.0, 7.5, "http://x"). *)
Theorem C4_extract_flight_info_offer :
  forall (kvs : list (string * pyobj)) (p q l : pyobj) (seconds : Z),
    assoc "price" kvs = Some p ->
    assoc "duration" kvs = Some (PInt seconds) ->
    assoc "quality" kvs = Some q ->
    assoc "deep_link" kvs = Some l ->
    Z.abs seconds < 2 ^ 53 ->
    extract_flight_info (PDict kvs)
    = Return {| price := p;
                duration :=
                  PyFloat.round
                    (PyFloat.div (PyFloat.of_Z seconds) (PyFloat.of_Z 3600)) 2;
                quality := q;
                link := l |}
    /\ extract_flight_info
         (PDict [ ("price", PInt 450); ("duration", PInt 36000);
                  ("quality", PFloat seven_and_a_half);
                  ("deep_link", PStr "http://x") ])
       = Return {| price := PInt 450; duration := ten_hours;
                   quality := PFloat seven_and_a_half;
                   link := PStr "http://x" |}.
Proof.
  intros kvs p q l seconds Hp Hs Hq Hl Hsmall. split.
  - rewrite (extract_flight_info_fields kvs p (PInt seconds) q l Hp Hs Hq Hl).
    simpl truediv_int.
    rewrite int_truediv_3600_small by exact Hsmall.
    reflexivity.
  - vm_compute. reflexivity.
Qed.

Lemma C4_witness :
  extract_flight_info
    (PDict [ ("deep_link", PStr "http://y"); ("quality", PInt 3);
             ("duration", PInt 5000); ("price", PInt 120);
             ("airlines", PList [PStr "NH"]) ])
  = Return {| price := PInt 120;
              duration := S754_finite false 6260003482044989 (-52);
              quality := PInt 3;
              link := PStr "http://y" |}.
Proof.
  exact (proj1 (C4_extract_flight_info_offer
                  [ ("deep_link", PStr "http://y"); ("quality", PInt 3);
                    ("duration", PInt 5000); ("price", PInt 120);
                    ("airlines", PList [PStr "NH"]) ]
                  (PInt 120) (PInt 3) (PStr "http://y") 5000
                  eq_refl eq_refl eq_refl eq_refl eq_refl)).
Defined.

Lemma comprehension_length {A B} (f : A -> outcome B) (xs : list A) (ys : list B) :
  Exc.comprehension f xs = Return ys -> List.length ys = List.length xs.
Proof.
  revert ys. induction xs as [|x xs IH]; simpl; intros ys H.
  - injection H as <-. reflexivity.
  - destruct (f x) as [y|e]; simpl in H; [|discriminate].
    destruct (Exc.comprehension f xs) as [ys'|e]; simpl in H; [|discriminate].
    injection H as <-. simpl. f_equal. apply IH. reflexivity.
Qed.

Lemma comprehension_raises {A B} (f : A -> outcome B) (before after : list A) (x : A) :
  (exists e, f x = Raise e) ->
  exists e, Exc.comprehension f (before ++ x :: after) = Raise e.
Proof.
  intros [e He]. induction before as [|b before [e' IH]]; simpl.
  - rewrite He. simpl. eauto.
  - destruct (f b) as [y|e'']; simpl; [|eauto].
    rewrite IH. simpl. eauto.
Qed.

Lemma comprehension_all {A B} (f : A -> outcome B) (xs : list A) :
  (forall x, In x xs -> exists y, f x = Return y) ->
  exists ys, Exc.comprehension f xs = Return ys.
Proof.
  induction xs as [|x xs IH]; intro Hall; simpl.
  - eauto.
  - destruct (Hall x (or_introl eq_refl)) as [y ->]. simpl.
    destruct IH as [ys ->]; [intros; apply Hall; right; assumption|].
    simpl. eauto.
Qed.

Lemma comprehension_nth {A B} (f : A -> outcome B) (xs : list A) :
  forall ys, Exc.comprehension f xs = Return ys ->
  forall i x, nth_error xs i = Some x ->
  exists y, nth_error ys i = Some y /\ f x = Return y.
Proof.
  induction xs as [|x0 xs IH]; intros ys Hys i x Hi.
  - destruct i; discriminate.
  - simpl in Hys.
    destruct (f x0) as [y0|e] eqn:Hy0; simpl in Hys; [|discriminate].
    destruct (Exc.comprehension f xs) as [ys'|e]; simpl in Hys; [|discriminate].
    injection Hys as <-.
    destruct i as [|i]; simpl in *.
    + injection Hi as <-. eauto.
    + apply (IH ys' eq_refl i x Hi).
Qed.


(** ** One search: what the method does to [self] and the world *)

Definition logged (w : world) (l : log_line) : world :=
  {| stdout := stdout w ++ [l]; files := files w |}.

(** The offers a response decodes to: [set_flights] without the
    assignment. *)
Definition offers_of (raw : pyobj) : outcome (list KiwiFlightInfo) :=
  items <-? iterate raw ;; Exc.comprehension extract_flight_info items.

Section Search.
Variables (key : string) (net : network).

Definition sent (fp : FlightItinerary) : request :=
  {| url := kiwi_url; data := kiwi_payload fp; headers := kiwi_headers key |}.

(** The call to the remote side, up to the [except] clause. *)
Definition response_of (fp : FlightItinerary) : outcome pyobj :=
  response <-? post net kiwi_url (kiwi_payload fp) (kiwi_headers key) ;;
  _ <-? raise_for_status response ;;
  json_loads (snd response).

Lemma get_raw_kiwi_results_run fp (s : BestFlights * world) :
  get_raw_kiwi_results key net fp s
  = match response_of fp with
    | Return j => (Return j, s)
    | Raise e => (Return PNone, (fst s, logged (snd s) (Error e)))
    end.
Proof.
  unfold get_raw_kiwi_results, response_of, Run.try_except, Run.bind,
    Run.lift, Run.ret, post.
  destruct (net _) as [|status text]; simpl; [reflexivity|].
  unfold raise_for_status; simpl.
  destruct ((400 <=? status) && (status <? 600)); simpl; [reflexivity|].
  destruct text; reflexivity.
Qed.

Lemma set_flights_run raw (s : BestFlights * world) :
  set_flights raw s
  = match offers_of raw with
    | Return infos =>
        (Return tt,
         ({| flight_plan := flight_plan (fst s); search_results := infos |},
          snd s))
    | Raise e => (Raise e, s)
    end.
Proof.
  unfold set_flights, offers_of, Run.bind, Run.lift, Run.get, Run.put.
  destruct (iterate raw) as [items|e]; simpl; [|reflexivity].
  destruct (Exc.comprehension extract_flight_info items); reflexivity.
Qed.

(** What reaches [set_flights]: the decoded response, or [None] after a
    failed call, with the world as the call left it. *)
Definition raw_results (fp : FlightItinerary) (w : world) : pyobj * world :=
  match response_of fp with
  | Return j => (j, w)
  | Raise e => (PNone, logged w (Error e))
  end.

Lemma search_and_set_flights_run (self : BestFlights) (w : world) :
  search_and_set_flights key net (self, w)
  = let fp := flight_plan self in
    let rw := raw_results fp (logged w (Searching fp)) in
    match offers_of (fst rw) with
    | Return infos =>
        (Return (PBool true),
         ({| flight_plan := fp; search_results := infos |}, snd rw))
    | Raise e => (Return PNone, (self, logged (snd rw) (Error e)))
    end.
Proof.
  unfold search_and_set_flights, Run.try_except, Run.bind at 1 2 3.
  unfold Run.get, print_m, print. simpl.
  fold (logged w (Searching (flight_plan self))).
  rewrite get_raw_kiwi_results_run. unfold raw_results.
  destruct (response_of (flight_plan self)) as [j|e]; simpl.
  - unfold Run.bind, Run.ret. rewrite set_flights_run. simpl.
    destruct (offers_of j); reflexivity.
  - reflexivity.
Qed.
End Search.

(** C5.  For every raw record that lacks one of the fields price, duration,
    quality, deep_link, the extractor raises: it returns no offer at all, so
    no default stands in for the missing field (a record without price
    raises KeyError on "price"); the exception passes through the caller,
    [set_flights], which raises in turn and leaves the offers as they
    were. *)
Theorem C5_missing_field_raises :
  forall kvs : list (string * pyobj),
    assoc "price" kvs = None \/ assoc "duration" kvs = None \/
    assoc "quality" kvs = None \/ assoc "deep_link" kvs = None ->
    (exists e, extract_flight_info (PDict kvs) = Raise e) /\
    (forall info, extract_flight_info (PDict kvs) <> Return info) /\
    (assoc "price" kvs = None ->
     extract_flight_info (PDict kvs) = Raise (KeyError "price")) /\
    (forall (before after : list pyobj) (s : BestFlights * world),
       exists e,
         set_flights (PList (before ++ PDict kvs :: after)) s = (Raise e, s)).
Proof.
  intros kvs Hmissing.
  pose proof (extract_flight_info_missing kvs Hmissing) as Hraise.
  split; [exact Hraise|].
  split; [intros info Hinfo; destruct Hraise as [e He]; congruence|].
  split; [apply extract_flight_info_no_price|].
  intros before after s.
  destruct (comprehension_raises extract_flight_info before after _ Hraise)
    as [e He].
  exists e. rewrite set_flights_run. unfold offers_of. simpl.
  rewrite He. reflexivity.
Qed.

Definition record_without_price : list (string * pyobj) :=
  [ ("duration", PInt 36000); ("quality", PInt 7);
    ("deep_link", PStr "http://x") ].

Lemma C5_witness :
  extract_flight_info (PDict record_without_price) = Raise (KeyError "price").
Proof.
  exact (proj1 (proj2 (proj2
           (C5_missing_field_raises record_without_price (or_introl eq_refl))))
           eq_refl).
Defined.

(** ** The per-itinerary boundary *)
Section Boundary.
Variables (key : string) (net : network).

(** The search and the extraction both succeed, with these offers. *)
Definition succeeds (fp : FlightItinerary) (infos : list KiwiFlightInfo) : Prop :=
  exists j, response_of key net fp = Return j /\ offers_of j = Return infos.

Lemma search_and_set_flights_cases (self : BestFlights) (w : world) :
  let result := search_and_set_flights key net (self, w) in
  (exists infos,
      succeeds (flight_plan self) infos /\
      fst result = Return (PBool true) /\
      fst (snd result)
      = {| flight_plan := flight_plan self; search_results := infos |})
  \/ ((forall infos, ~ succeeds (flight_plan self) infos) /\
      fst result = Return PNone /\
      fst (snd result) = self).
Proof.
  intro result. subst result.
  rewrite search_and_set_flights_run. unfold raw_results, succeeds. simpl.
  destruct (response_of key net (flight_plan self)) as [j|e] eqn:Hj; simpl.
  - destruct (offers_of j) as [infos|e] eqn:Ho; simpl.
    + left. exists infos. eauto.
    + right. repeat split.
      intros infos (j' & Hj' & Ho'). congruence.
  - right. repeat split.
    intros infos (j' & Hj' & Ho'). congruence.
Qed.

(** A transport failure, a 4xx or 5xx status and an undecodable body are
    all caught: the method returns [None] and [self] is as before. *)
Lemma failed_call_is_contained (self : BestFlights) (w : world) :
  (net (sent key (flight_plan self)) = NoReply
   \/ (exists status text,
         net (sent key (flight_plan self)) = Reply status text /\
         400 <= status < 600)
   \/ (exists status,
         net (sent key (flight_plan self)) = Reply status Malformed)) ->
  fst (search_and_set_flights key net (self, w)) = Return PNone /\
  fst (snd (search_and_set_flights key net (self, w))) = self.
Proof.
  intro Hfail.
  assert (exists e, response_of key net (flight_plan self) = Raise e) as [e He].
  { unfold response_of, post. fold (sent key (flight_plan self)).
    destruct Hfail as [->|[(status & text & -> & Hs)|(status & ->)]]; simpl.
    - eauto.
    - unfold raise_for_status. simpl.
      replace ((400 <=? status) && (status <? 600)) with true; simpl; eauto.
      symmetry. apply andb_true_intro. split; [apply Z.leb_le|apply Z.ltb_lt]; lia.
    - unfold raise_for_status. simpl.
      destruct ((400 <=? status) && (status <? 600)); simpl; eauto. }
  rewrite search_and_set_flights_run. unfold raw_results. simpl.
  rewrite He. simpl. split; reflexivity.
Qed.
End Boundary.

(** [search_and_set_flights] returns [True] or [None] and nothing else.  It
    returns [True] exactly when the call passes the checks the code makes
    and the extraction goes through, and then [self] holds the extracted
    offers; otherwise it returns [None] and leaves [self] as it was; it
    never returns [False] and never raises. *)
Lemma search_returns_True_or_None :
  forall (key : string) (net : network) (self : BestFlights) (w : world),
    let result := search_and_set_flights key net (self, w) in
    ((exists infos,
         succeeds key net (flight_plan self) infos /\
         fst result = Return (PBool true) /\
         fst (snd result)
         = {| flight_plan := flight_plan self; search_results := infos |})
     \/ ((forall infos, ~ succeeds key net (flight_plan self) infos) /\
         fst result = Return PNone /\
         fst (snd result) = self))
    /\ fst result <> Return (PBool false)
    /\ (forall e, fst result <> Raise e).
Proof.
  intros key net self w result.
  pose proof (search_and_set_flights_cases key net self w) as Hcases.
  fold result in Hcases.
  split; [exact Hcases|].
  destruct Hcases as [(infos & _ & -> & _)|(_ & -> & _)];
    split; try intro; discriminate.
Qed.

Definition good_record : pyobj :=
  PDict [ ("price", PInt 450); ("duration", PInt 36000);
          ("quality", PFloat seven_and_a_half);
          ("deep_link", PStr "http://x") ].

Definition good_offer : KiwiFlightInfo :=
  {| price := PInt 450; duration := ten_hours;
     quality := PFloat seven_and_a_half; link := PStr "http://x" |}.

(** An entry as [main] creates it, and a world in which nothing has been
    printed or written yet. *)
Definition fresh (fp : FlightItinerary) : BestFlights :=
  {| flight_plan := fp; search_results := [] |}.

Definition quiet : world := {| stdout := []; files := [] |}.

(** The remote side answers every request with status 300 (Multiple
    Choices) and a JSON list of one record. *)
Definition multiple_choices : network :=
  fun _ => Reply 300 (Json (PList [good_record])).

(** C6, at a response whose status is 300.  [raise_for_status] lets the
    status through, the body decodes, and the search is taken as a success:
    the method returns [True], the offer is stored, and no error is
    printed. *)
Theorem C6_status_300_taken_as_success :
  forall key : string,
    search_and_set_flights key multiple_choices (fresh lax_hnd_nrt_lax, quiet)
    = (Return (PBool true),
       ({| flight_plan := lax_hnd_nrt_lax; search_results := [good_offer] |},
        {| stdout := [Searching lax_hnd_nrt_lax]; files := [] |})).
Proof. intro key. vm_compute. reflexivity. Qed.

(** ** The call to the remote side *)
Section Call.
Variables (key : string) (net : network) (fp : FlightItinerary).

Lemma response_of_by_reply :
  response_of key net fp
  = match net (sent key fp) with
    | NoReply => Raise RequestException
    | Reply status text =>
        if (400 <=? status) && (status <? 600) then Raise (HTTPError status)
        else match text with
             | Malformed => Raise JSONDecodeError
             | Json j => Return j
             end
    end.
Proof.
  unfold response_of, post. fold (sent key fp).
  destruct (net (sent key fp)) as [|status text]; simpl; [reflexivity|].
  unfold raise_for_status. simpl.
  destruct ((400 <=? status) && (status <? 600)); simpl; [reflexivity|].
  destruct text; reflexivity.
Qed.

Lemma status_passes status :
  ~ 400 <= status < 600 -> (400 <=? status) && (status <? 600) = false.
Proof.
  intro H. destruct (Z.leb_spec 400 status), (Z.ltb_spec status 600);
    simpl; try reflexivity. lia.
Qed.

Lemma status_stops status :
  400 <= status < 600 -> (400 <=? status) && (status <? 600) = true.
Proof.
  intro H. apply andb_true_intro. split; [apply Z.leb_le|apply Z.ltb_lt]; lia.
Qed.

Lemma response_of_json status j :
  net (sent key fp) = Reply status (Json j) -> ~ 400 <= status < 600 ->
  response_of key net fp = Return j.
Proof.
  intros Hnet Hst. rewrite response_of_by_reply, Hnet, status_passes by exact Hst.
  reflexivity.
Qed.
End Call.

(** The remote side answers every request with status 300 and an empty
    JSON list. *)
Definition empty_choices : network :=
  fun _ => Reply 300 (Json (PList [])).

(** C10, at a response whose status is 300.  The status is not a 2xx one,
    so the search has failed and the value to return is [None]; the method
    returns [True], with no error printed. *)
Theorem C10_status_300_returns_True :
  forall key : string,
    search_and_set_flights key empty_choices (fresh lax_hnd_nrt_lax, quiet)
    = (Return (PBool true),
       (fresh lax_hnd_nrt_lax,
        {| stdout := [Searching lax_hnd_nrt_lax]; files := [] |})).
Proof. intro key. vm_compute. reflexivity. Qed.

(** ** The batch *)
Section Batch.
Variables (key : string) (nets : nat -> network).

(** The entry [bf] once its search, against [net], has run. *)
Definition searched (net : network) (bf : BestFlights) : BestFlights :=
  fst (snd (search_and_set_flights key net (bf, quiet))).

Lemma search_and_set_flights_self net bf w :
  fst (snd (search_and_set_flights key net (bf, w))) = searched net bf.
Proof.
  unfold searched. rewrite !search_and_set_flights_run.
  unfold raw_results. simpl.
  destruct (response_of key net (flight_plan bf)) as [j|e]; simpl.
  - destruct (offers_of j); reflexivity.
  - reflexivity.
Qed.


Lemma run_searches_nth plans : forall start w i bf,
  nth_error plans i = Some bf ->
  nth_error (fst (run_searches key nets start plans w)) i
  = Some (searched (nets (start + i)%nat) bf).
Proof.
  induction plans as [|f rest IH]; intros start w i bf Hi.
  - destruct i; discriminate.
  - simpl.
    pose proof (search_and_set_flights_self (nets start) f w) as Hf.
    destruct (search_and_set_flights key (nets start) (f, w)) as [r [f' w']].
    simpl in Hf.
    specialize (IH (S start) w').
    destruct (run_searches key nets (S start) rest w') as [rest' w''].
    destruct i as [|i]; simpl in *.
    + injection Hi as <-. rewrite Nat.add_0_r, Hf. reflexivity.
    + rewrite (IH i bf Hi). do 3 f_equal. lia.
Qed.

(** The offers after a search: one per record of the response when the
    search succeeded, the former ones when it failed. *)
Lemma searched_offers net bf :
  flight_plan (searched net bf) = flight_plan bf /\
  ((exists j items,
       response_of key net (flight_plan bf) = Return j /\
       iterate j = Return items /\
       List.length (search_results (searched net bf)) = List.length items)
   \/ search_results (searched net bf) = search_results bf).
Proof.
  unfold searched. rewrite search_and_set_flights_run.
  unfold raw_results. simpl.
  destruct (response_of key net (flight_plan bf)) as [j|e]; simpl.
  - destruct (offers_of j) as [infos|e] eqn:Ho; simpl.
    + split; [reflexivity|]. left.
      unfold offers_of in Ho.
      destruct (iterate j) as [items|e] eqn:Hit; simpl in Ho; [|discriminate].
      exists j, items. split; [reflexivity|]. split; [exact Hit|].
      eapply comprehension_length. exact Ho.
    + split; [reflexivity|]. right. reflexivity.
  - split; [reflexivity|]. right. reflexivity.
Qed.
End Batch.


Section Answered.
Variables (key : string) (net : network) (bf : BestFlights).



End Answered.






(** ** The exporter *)

Local Open Scope list_scope.

Section Ragged.
Context {A B : Type}.
Variable f : A -> list B.

Definition total_before (i : nat) (l : list A) : nat :=
  list_sum (map (fun x => List.length (f x)) (firstn i l)).

Lemma flat_map_length_sum (l : list A) :
  List.length (flat_map f l) = list_sum (map (fun x => List.length (f x)) l).
Proof.
  induction l as [|x l IH]; simpl.
  - reflexivity.
  - rewrite List.length_app, IH. reflexivity.
Qed.

Lemma flat_map_nth_ragged (l : list A) :
  forall i j x, nth_error l i = Some x -> (j < List.length (f x))%nat ->
  nth_error (flat_map f l) (total_before i l + j) = nth_error (f x) j.
Proof.
  unfold total_before.
  induction l as [|y l IH]; intros i j x Hi Hj.
  - destruct i; discriminate.
  - destruct i as [|i]; simpl in *.
    + injection Hi as ->. apply nth_error_app1. exact Hj.
    + rewrite nth_error_app2 by lia.
      replace (List.length (f y)
               + list_sum (map (fun x => List.length (f x)) (firstn i l))
               + j - List.length (f y))%nat
        with (list_sum (map (fun x => List.length (f x)) (firstn i l)) + j)%nat
        by lia.
      apply IH; assumption.
Qed.

Lemma flat_map_all_empty (l : list A) :
  (forall x, In x l -> f x = []) -> flat_map f l = [].
Proof.
  induction l as [|x l IH]; simpl; intro H.
  - reflexivity.
  - rewrite (H x) by (left; reflexivity). apply IH.
    intros y Hy. apply H. right. exact Hy.
Qed.
End Ragged.

(** The row of one offer under its itinerary. *)
Definition csv_row (fp : FlightItinerary) (info : KiwiFlightInfo) : row :=
  ([ CStr (home_out fp); CStr (dest_in fp); CStr (dest_out fp);
     CStr (home_in fp); CDate (date_from fp); CDate (date_to fp) ]
   ++ [ CObj (price info); CFloat (duration info);
        CObj (quality info); CObj (link info) ])%list.

Definition plan_rows (plan : BestFlights) : list row :=
  map (csv_row (flight_plan plan)) (search_results plan).

(** A trailing [for x in [c]] clause binds [x] to [c] once. *)
Lemma flat_map_single {A B C} (g : A -> C -> B) (c : C) (l : list A) :
  flat_map (fun a => map (fun x => g a x) [c]) l = map (fun a => g a c) l.
Proof.
  induction l as [|a l IH]; simpl in *.
  - reflexivity.
  - rewrite IH. reflexivity.
Qed.

Lemma csv_rows_by_plan (self : AllOptionsForJapan) :
  csv_rows self = flat_map plan_rows (all_flight_plans self).
Proof.
  unfold csv_rows. apply flat_map_ext. intro plan.
  exact (flat_map_single (fun info fp => csv_row fp info)
           (flight_plan plan) (search_results plan)).
Qed.

Section Exporter.
Variable name : string.

Lemma written_write_file rows w :
  written name (write_file name rows w) = rows.
Proof. unfold written, write_file. simpl. rewrite String.eqb_refl. reflexivity. Qed.

(** Rows go through as long as the fault does not fall on one of them. *)
Lemma writerows_through fault (rs : list row) : forall w,
  (forall k, (List.length (written name w) <= k
              < List.length (written name w) + List.length rs)%nat ->
             refuses fault k = false) ->
  exists w',
    writerows fault name rs w = (Return tt, w') /\
    written name w' = written name w ++ rs /\
    stdout w' = stdout w.
Proof.
  induction rs as [|r rs IH]; intros w Hfree; simpl.
  - exists w. rewrite app_nil_r. repeat split.
  - unfold Run.bind, writerow.
    rewrite (Hfree (List.length (written name w))) by (simpl; lia).
    destruct (IH (write_file name (written name w ++ [r]) w)) as (w' & Hrun & Hrows & Hout).
    { intros k Hk. apply Hfree. rewrite written_write_file in Hk.
      rewrite List.length_app in Hk. simpl in *. lia. }
    exists w'. rewrite Hrun, Hrows, written_write_file, <- app_assoc.
    repeat split. exact Hout.
Qed.

(** The fault falls on one of the rows: the write raises. *)
Lemma writerows_refused n kept (rs : list row) : forall w,
  (List.length (written name w) <= n
   < List.length (written name w) + List.length rs)%nat ->
  exists w', writerows (WriteFails n kept) name rs w = (Raise OSError, w').
Proof.
  induction rs as [|r rs IH]; intros w Hn; simpl in *.
  - lia.
  - unfold Run.bind, writerow. simpl.
    destruct (Nat.eqb_spec n (List.length (written name w))) as [Heq|Hne].
    + eauto.
    + destruct (IH (write_file name (written name w ++ [r]) w)) as [w' Hrun].
      { rewrite written_write_file, List.length_app. simpl. lia. }
      rewrite Hrun. eauto.
Qed.

Lemma open_w_through fault w :
  fault <> OpenFails -> open_w fault name w = (Return tt, write_file name [] w).
Proof. destruct fault; [reflexivity|contradiction|reflexivity]. Qed.

Lemma to_csv_through fault (self : AllOptionsForJapan) (w : world) :
  fault <> OpenFails ->
  (forall k, (k <= List.length (csv_rows self))%nat -> refuses fault k = false) ->
  exists w',
    to_csv fault self name w = (Return (PInt 0), w') /\
    written name w' = csv_header :: csv_rows self /\
    stdout w' = stdout w ++ [Written name].
Proof.
  intros Hopen Hfree. unfold to_csv, Run.bind at 1 2.
  rewrite (open_w_through fault w Hopen).
  unfold writerow. rewrite written_write_file. cbn [List.length app].
  rewrite (Hfree 0%nat) by lia.
  destruct (writerows_through fault (csv_rows self)
              (write_file name [csv_header] (write_file name [] w)))
    as (w' & Hrun & Hrows & Hout).
  { intros k Hk. rewrite written_write_file in Hk. simpl in Hk.
    apply Hfree. lia. }
  rewrite written_write_file in Hrows.
  unfold Run.bind at 1. rewrite Hrun.
  unfold Run.bind, print_w, print, Run.ret.
  eexists. split; [reflexivity|]. split.
  - exact Hrows.
  - simpl. rewrite Hout. reflexivity.
Qed.

Lemma to_csv_refused n kept (self : AllOptionsForJapan) (w : world) :
  (n <= List.length (csv_rows self))%nat ->
  fst (to_csv (WriteFails n kept) self name w) = Raise OSError.
Proof.
  intros Hn. unfold to_csv, Run.bind at 1 2, open_w, writerow.
  rewrite written_write_file. simpl.
  destruct (Nat.eqb_spec n 0) as [->|Hpos]; [reflexivity|].
  destruct (writerows_refused n kept (csv_rows self)
              (write_file name [csv_header] (write_file name [] w)))
    as [w' Hrun].
  { rewrite written_write_file. simpl. lia. }
  unfold Run.bind at 1. rewrite Hrun. reflexivity.
Qed.
End Exporter.

(** The offers held by the entries in front of entry [i]. *)
Definition offers_before (i : nat) (plans : list BestFlights) : nat :=
  list_sum (map (fun p => List.length (search_results p)) (firstn i plans)).

Lemma total_before_plan_rows i plans :
  total_before plan_rows i plans = offers_before i plans.
Proof.
  unfold total_before, offers_before. f_equal.
  apply map_ext. intro p. apply List.length_map.
Qed.

(** C7.  When nothing goes wrong with the file, [to_csv] leaves in it one
    header row with the ten column names and then one row per (itinerary,
    offer) pair: as many rows as the batch holds offers, the row of offer [j]
    of entry [i] standing after the rows of all earlier entries and of the
    earlier offers of entry [i], and made of the itinerary's six fields
    followed by the offer's four.  Entries without offers contribute no row,
    so a batch without any offer gives the header row alone. *)
Theorem C7_to_csv_header_then_offer_rows :
  forall (self : AllOptionsForJapan) (name : string) (w : world),
    exists (w' : world) (rows : list row),
      to_csv NoFault self name w = (Return (PInt 0), w')
      /\ written name w'
         = [ CStr "Home Out"; CStr "Dest In"; CStr "Dest Out"; CStr "Home In";
             CStr "Date From"; CStr "Date To";
             CStr "Price"; CStr "Duration"; CStr "Quality"; CStr "Link" ]
           :: rows
      /\ List.length rows
         = list_sum (map (fun p => List.length (search_results p))
                         (all_flight_plans self))
      /\ (forall i j plan offer,
            nth_error (all_flight_plans self) i = Some plan ->
            nth_error (search_results plan) j = Some offer ->
            nth_error rows (offers_before i (all_flight_plans self) + j)
            = Some ([ CStr (home_out (flight_plan plan));
                      CStr (dest_in (flight_plan plan));
                      CStr (dest_out (flight_plan plan));
                      CStr (home_in (flight_plan plan));
                      CDate (date_from (flight_plan plan));
                      CDate (date_to (flight_plan plan)) ]
                    ++ [ CObj (price offer); CFloat (duration offer);
                         CObj (quality offer); CObj (link offer) ]))
      /\ ((forall plan, In plan (all_flight_plans self) ->
                        search_results plan = []) ->
          written name w' = [csv_header]).
Proof.
  intros self name w.
  destruct (to_csv_through name NoFault self w) as (w' & Hrun & Hrows & _);
    [discriminate|reflexivity|].
  exists w', (csv_rows self).
  split; [exact Hrun|]. split; [exact Hrows|].
  rewrite Hrows, csv_rows_by_plan. split; [|split].
  - rewrite flat_map_length_sum. f_equal.
    apply map_ext. intro p. apply List.length_map.
  - intros i j plan offer Hi Hj.
    rewrite <- total_before_plan_rows.
    rewrite (flat_map_nth_ragged plan_rows _ i j plan Hi).
    + unfold plan_rows. rewrite nth_error_map, Hj. reflexivity.
    + unfold plan_rows. rewrite List.length_map.
      apply nth_error_Some. congruence.
  - intro Hnone. f_equal. apply flat_map_all_empty.
    intros plan Hin. unfold plan_rows. rewrite (Hnone plan Hin). reflexivity.
Qed.

Definition two_entries : AllOptionsForJapan :=
  {| all_flight_plans :=
       [ fresh lax_hnd_nrt_lax;
         {| flight_plan := lax_hnd_nrt_lax;
            search_results := [good_offer; good_offer] |} ] |}.

Lemma C7_witness :
  exists (w' : world) (rows : list row),
    to_csv NoFault two_entries "flights.csv" quiet = (Return (PInt 0), w')
    /\ written "flights.csv" w' = csv_header :: rows
    /\ List.length rows = 2%nat
    /\ (forall i j plan offer,
          nth_error (all_flight_plans two_entries) i = Some plan ->
          nth_error (search_results plan) j = Some offer ->
          nth_error rows (offers_before i (all_flight_plans two_entries) + j)
          = Some (csv_row (flight_plan plan) offer))
    /\ ((forall plan, In plan (all_flight_plans two_entries) ->
                      search_results plan = []) ->
        written "flights.csv" w' = [csv_header]).
Proof.
  exact (C7_to_csv_header_then_offer_rows two_entries "flights.csv" quiet).
Defined.

(** C8.  [to_csv] returns 0 when the file is opened and every row is
    written; when the file cannot be opened, or a row is refused (whatever
    the refused write leaves in the file), it raises [OSError] to its caller:
    nothing inside the method catches it. *)
Theorem C8_to_csv_returns_0_or_raises :
  forall (self : AllOptionsForJapan) (name : string) (w : world),
    fst (to_csv NoFault self name w) = Return (PInt 0)
    /\ to_csv OpenFails self name w = (Raise OSError, w)
    /\ (forall n kept, (n <= List.length (csv_rows self))%nat ->
          fst (to_csv (WriteFails n kept) self name w) = Raise OSError)
    /\ (forall n kept, (List.length (csv_rows self) < n)%nat ->
          fst (to_csv (WriteFails n kept) self name w) = Return (PInt 0)).
Proof.
  intros self name w. split; [|split; [|split]].
  - destruct (to_csv_through name NoFault self w) as (w' & -> & _);
      [discriminate|reflexivity|reflexivity].
  - reflexivity.
  - intros n kept Hn. apply to_csv_refused. exact Hn.
  - intros n kept Hn.
    destruct (to_csv_through name (WriteFails n kept) self w) as (w' & -> & _).
    + discriminate.
    + intros k Hk. simpl. apply Nat.eqb_neq. lia.
    + reflexivity.
Qed.

(** A write cut in the middle of the second row. *)
Definition cut_in_second_row : list row :=
  [csv_header; [CStr "LAX"; CStr "HND"; CStr "NR"]].

Lemma C8_witness :
  fst (to_csv (WriteFails 2 cut_in_second_row) two_entries "flights.csv" quiet)
  = Raise OSError.
Proof.
  apply (proj1 (proj2 (proj2
           (C8_to_csv_returns_0_or_raises two_entries "flights.csv" quiet)))).
  simpl. lia.
Defined.


(** * Further properties of the script *)

(** ** Dates on the wire *)

(** Reading a date back from its day/month/year text: two digits, a
    slash, two digits, a slash, and the year up to the end. *)
Definition has_at (n : nat) (c : ascii) (s : string) : bool :=
  match String.get n s with
  | Some c' => Ascii.eqb c' c
  | None => false
  end.

Definition parse_kiwi_date (s : string) : option date :=
  if has_at 2 "/" s && has_at 5 "/" s
  then
    match decimal (substring 0 2 s),
          decimal (substring 3 2 s),
          decimal (substring 6 (String.length s - 6) s) with
    | Some d, Some m, Some y => Some {| year := y; month := m; day := d |}
    | _, _, _ => None
    end
  else None.

Lemma valid_date_bounds d :
  valid_date d = true ->
  1 <= year d <= 9999 /\ 1 <= month d <= 12 /\ 1 <= day d <= 31.
Proof.
  unfold valid_date. intro Hv.
  repeat (apply andb_prop in Hv as [Hv ?]).
  pose proof (days_in_month_le (year d) (month d)). lia.
Qed.

Lemma substring_whole (s : string) : substring 0 (String.length s) s = s.
Proof.
  induction s as [|c s IH]; simpl; [reflexivity|]. rewrite IH. reflexivity.
Qed.

Lemma parse_kiwi_date_format d :
  valid_date d = true -> parse_kiwi_date (date_to_kiwi_format d) = Some d.
Proof.
  intro Hv. apply valid_date_bounds in Hv as (Hy & Hm & Hd).
  pose proof (year_digits_decimal (year d)) as HY.
  rewrite date_to_kiwi_format_shape.
  remember (year_digits (year d)) as Y eqn:EY.
  unfold parse_kiwi_date.
  change (substring 0 2 (pad2 (day d) ++ "/" ++ pad2 (month d) ++ "/" ++ Y))
    with (pad2 (day d)).
  change (substring 3 2 (pad2 (day d) ++ "/" ++ pad2 (month d) ++ "/" ++ Y))
    with (pad2 (month d)).
  change (substring 6
            (String.length (pad2 (day d) ++ "/" ++ pad2 (month d) ++ "/" ++ Y) - 6)
            (pad2 (day d) ++ "/" ++ pad2 (month d) ++ "/" ++ Y))
    with (substring 0 (String.length Y - 0) Y).
  rewrite Nat.sub_0_r.
  change (has_at 2 "/" (pad2 (day d) ++ "/" ++ pad2 (month d) ++ "/" ++ Y)
          && has_at 5 "/" (pad2 (day d) ++ "/" ++ pad2 (month d) ++ "/" ++ Y))
    with true.
  rewrite substring_whole, !pad2_decimal, HY by lia.
  destruct d; reflexivity.
Qed.

Lemma date_to_kiwi_format_injective d1 d2 :
  valid_date d1 = true -> valid_date d2 = true ->
  date_to_kiwi_format d1 = date_to_kiwi_format d2 -> d1 = d2.
Proof.
  intros H1 H2 Heq.
  pose proof (parse_kiwi_date_format d1 H1) as P1.
  pose proof (parse_kiwi_date_format d2 H2) as P2.
  rewrite Heq in P1. congruence.
Qed.

(** X1.  The day/month/year text of a calendar date reads back as that
    date, so two different calendar dates are never sent as the same text. *)
Theorem X1_kiwi_date_round_trip :
  forall d1 d2 : date,
    valid_date d1 = true ->
    valid_date d2 = true ->
    parse_kiwi_date (date_to_kiwi_format d1) = Some d1
    /\ (date_to_kiwi_format d1 = date_to_kiwi_format d2 -> d1 = d2).
Proof.
  intros d1 d2 H1 H2. split.
  - apply parse_kiwi_date_format. exact H1.
  - apply date_to_kiwi_format_injective; assumption.
Qed.

Example date_to_kiwi_format_year_999 :
  date_to_kiwi_format {| year := 999; month := 1; day := 5 |} = "05/01/999"
  /\ date_to_kiwi_format {| year := 2024; month := 3; day := 22 |} = "22/03/2024".
Proof. split; reflexivity. Qed.

Lemma X1_witness :
  parse_kiwi_date (date_to_kiwi_format {| year := 999; month := 1; day := 5 |})
  = Some {| year := 999; month := 1; day := 5 |}.
Proof.
  exact (proj1 (X1_kiwi_date_round_trip
                  {| year := 999; month := 1; day := 5 |}
                  {| year := 2024; month := 2; day := 29 |}
                  eq_refl eq_refl)).
Defined.

(** ** The request *)

(** Reading one leg spec, and a whole payload, back into an itinerary. *)
Definition leg_of (leg : pyobj) : option (string * string * date) :=
  match getitem leg "fly_from", getitem leg "fly_to", getitem leg "date_from" with
  | Return (PStr a), Return (PStr b), Return (PStr s) =>
      match parse_kiwi_date s with
      | Some d => Some (a, b, d)
      | None => None
      end
  | _, _, _ => None
  end.

Definition itinerary_of_payload (p : pyobj) : option FlightItinerary :=
  match getitem p "requests" with
  | Return (PList [leg1; leg2]) =>
      match leg_of leg1, leg_of leg2 with
      | Some (a1, b1, d1), Some (b2, a2, d2) =>
          Some {| home_out := a1; dest_in := b1; dest_out := b2; home_in := a2;
                  date_from := d1; date_to := d2 |}
      | _, _ => None
      end
  | _ => None
  end.

Lemma itinerary_of_kiwi_payload fp :
  valid_date (date_from fp) = true -> valid_date (date_to fp) = true ->
  itinerary_of_payload (kiwi_payload fp) = Some fp.
Proof.
  intros Hf Ht.
  pose proof (parse_kiwi_date_format _ Hf) as Pf.
  pose proof (parse_kiwi_date_format _ Ht) as Pt.
  unfold itinerary_of_payload, leg_of, kiwi_payload.
  remember (date_to_kiwi_format (date_from fp)) as sf.
  remember (date_to_kiwi_format (date_to fp)) as st.
  simpl. rewrite Pf, Pt. destruct fp; reflexivity.
Qed.

(** X2.  The payload determines the itinerary: it reads back as the
    itinerary it was built from (its dates being calendar dates), so two
    different itineraries never produce the same payload. *)
Theorem X2_kiwi_payload_round_trip :
  forall fp1 fp2 : FlightItinerary,
    valid_date (date_from fp1) = true -> valid_date (date_to fp1) = true ->
    valid_date (date_from fp2) = true -> valid_date (date_to fp2) = true ->
    itinerary_of_payload (kiwi_payload fp1) = Some fp1
    /\ (kiwi_payload fp1 = kiwi_payload fp2 -> fp1 = fp2).
Proof.
  intros fp1 fp2 Hf1 Ht1 Hf2 Ht2. split.
  - apply itinerary_of_kiwi_payload; assumption.
  - intro Heq.
    pose proof (itinerary_of_kiwi_payload fp1 Hf1 Ht1) as P1.
    pose proof (itinerary_of_kiwi_payload fp2 Hf2 Ht2) as P2.
    rewrite Heq in P1. congruence.
Qed.

Lemma X2_witness :
  itinerary_of_payload (kiwi_payload lax_hnd_nrt_lax) = Some lax_hnd_nrt_lax.
Proof.
  exact (proj1 (X2_kiwi_payload_round_trip lax_hnd_nrt_lax lax_hnd_nrt_lax
                  eq_refl eq_refl eq_refl eq_refl)).
Defined.


(** X3.  [get_raw_kiwi_results] never raises and never touches [self] or
    the files.  Either it prints nothing, or it prints exactly one error
    line, and then what it returns is [None]. *)
Theorem X3_get_raw_kiwi_results_contains_errors :
  forall (key : string) (net : network) (fp : FlightItinerary)
         (self : BestFlights) (w : world),
  exists (r : pyobj) (w' : world),
    get_raw_kiwi_results key net fp (self, w) = (Return r, (self, w'))
    /\ files w' = files w
    /\ (stdout w' = stdout w
        \/ (r = PNone /\ exists e, stdout w' = stdout w ++ [Error e])).
Proof.
  intros key net fp self w.
  rewrite get_raw_kiwi_results_run. simpl.
  destruct (response_of key net fp) as [j|e].
  - exists j, w. repeat split. left. reflexivity.
  - exists PNone, (logged w (Error e)). repeat split. right.
    split; [reflexivity|]. exists e. reflexivity.
Qed.

(** X4.  A failed call is reported twice.  When the request gets no reply,
    or a 4xx/5xx status, or a body that is not JSON, [search_and_set_flights]
    prints the itinerary, then the call's own exception, then the
    [TypeError] of iterating over [None]; it returns [None] and leaves
    [self] and the files alone. *)
Theorem X4_failed_call_prints_two_errors :
  forall (key : string) (net : network) (self : BestFlights) (w : world),
    let fp := flight_plan self in
    let failed (e : exn) :=
      search_and_set_flights key net (self, w)
      = (Return PNone,
         (self,
          {| stdout := stdout w ++ [Searching fp; Error e; Error TypeError];
             files := files w |})) in
    (net (sent key fp) = NoReply -> failed RequestException)
    /\ (forall status text,
          net (sent key fp) = Reply status text ->
          400 <= status < 600 -> failed (HTTPError status))
    /\ (forall status,
          net (sent key fp) = Reply status Malformed ->
          ~ 400 <= status < 600 -> failed JSONDecodeError).
Proof.
  intros key net self w fp failed. subst failed fp.
  assert (Hfail : forall e,
             response_of key net (flight_plan self) = Raise e ->
             search_and_set_flights key net (self, w)
             = (Return PNone,
                (self,
                 {| stdout := stdout w ++ [Searching (flight_plan self);
                                           Error e; Error TypeError];
                    files := files w |}))).
  { intros e He. rewrite search_and_set_flights_run. unfold raw_results.
    simpl. rewrite He. simpl. unfold logged. simpl.
    rewrite <- !app_assoc. reflexivity. }
  split; [|split].
  - intro Hnet. apply Hfail. rewrite response_of_by_reply, Hnet. reflexivity.
  - intros status text Hnet Hst. apply Hfail.
    rewrite response_of_by_reply, Hnet, status_stops by exact Hst. reflexivity.
  - intros status Hnet Hst. apply Hfail.
    rewrite response_of_by_reply, Hnet, status_passes by exact Hst. reflexivity.
Qed.

Definition unreachable : network := fun _ => NoReply.

Lemma X4_witness :
  search_and_set_flights "k" unreachable (fresh lax_hnd_nrt_lax, quiet)
  = (Return PNone,
     (fresh lax_hnd_nrt_lax,
      {| stdout := [ Searching lax_hnd_nrt_lax; Error RequestException;
                     Error TypeError ];
         files := [] |})).
Proof.
  exact (proj1 (X4_failed_call_prints_two_errors
                  "k" unreachable (fresh lax_hnd_nrt_lax) quiet) eq_refl).
Defined.

(** ** Storing the offers *)

(** X5.  One record that cannot be extracted loses the whole response: if
    the decoded list holds a record on which the extractor raises, the search
    returns [None] and [self] keeps the offers it had, whatever the other
    records are. *)
Theorem X5_one_bad_record_loses_all :
  forall (key : string) (net : network) (self : BestFlights) (w : world)
         (status : Z) (before after : list pyobj) (bad : pyobj),
    net (sent key (flight_plan self))
    = Reply status (Json (PList (before ++ bad :: after))) ->
    (exists e, extract_flight_info bad = Raise e) ->
    fst (search_and_set_flights key net (self, w)) = Return PNone
    /\ fst (snd (search_and_set_flights key net (self, w))) = self.
Proof.
  intros key net self w status before after bad Hnet Hbad.
  rewrite search_and_set_flights_run. unfold raw_results. simpl.
  rewrite response_of_by_reply, Hnet.
  destruct ((400 <=? status) && (status <? 600)); simpl.
  - split; reflexivity.
  - destruct (comprehension_raises extract_flight_info before after bad Hbad)
      as [e He].
    unfold offers_of. simpl. rewrite He. simpl. split; reflexivity.
Qed.

Definition one_bad_among_good : network :=
  fun _ => Reply 200 (Json (PList [good_record; PDict record_without_price;
                                   good_record])).

Lemma X5_witness :
  fst (search_and_set_flights "k" one_bad_among_good
         (fresh lax_hnd_nrt_lax, quiet)) = Return PNone
  /\ fst (snd (search_and_set_flights "k" one_bad_among_good
                 (fresh lax_hnd_nrt_lax, quiet))) = fresh lax_hnd_nrt_lax.
Proof.
  apply (X5_one_bad_record_loses_all "k" one_bad_among_good
           (fresh lax_hnd_nrt_lax) quiet 200
           [good_record] [good_record] (PDict record_without_price)).
  - reflexivity.
  - exists (KeyError "price"). reflexivity.
Defined.

(** X6.  The offers keep the order of the response.  When the reply is a
    JSON list (under a status that is not 4xx/5xx) and every record of it
    can be extracted, the search returns [True], and offer [i] of [self] is
    the extraction of record [i]. *)
Theorem X6_offers_in_response_order :
  forall (key : string) (net : network) (self : BestFlights) (w : world)
         (status : Z) (items : list pyobj),
    net (sent key (flight_plan self)) = Reply status (Json (PList items)) ->
    ~ 400 <= status < 600 ->
    (forall x, In x items -> exists y, extract_flight_info x = Return y) ->
    let result := search_and_set_flights key net (self, w) in
    fst result = Return (PBool true)
    /\ List.length (search_results (fst (snd result))) = List.length items
    /\ (forall i x,
          nth_error items i = Some x ->
          exists y,
            nth_error (search_results (fst (snd result))) i = Some y /\
            extract_flight_info x = Return y).
Proof.
  intros key net self w status items Hnet Hst Hall result. subst result.
  rewrite search_and_set_flights_run. unfold raw_results. simpl.
  rewrite (response_of_json key net _ status (PList items) Hnet Hst). simpl.
  destruct (comprehension_all extract_flight_info items Hall) as [ys Hys].
  unfold offers_of. simpl. rewrite Hys. simpl.
  split; [reflexivity|]. split.
  - apply (comprehension_length _ _ _ Hys).
  - apply (comprehension_nth _ _ _ Hys).
Qed.

Definition two_good : network :=
  fun _ => Reply 200 (Json (PList [good_record; good_record])).

Lemma X6_witness :
  fst (search_and_set_flights "k" two_good (fresh lax_hnd_nrt_lax, quiet))
  = Return (PBool true).
Proof.
  apply (X6_offers_in_response_order "k" two_good (fresh lax_hnd_nrt_lax) quiet
           200 [good_record; good_record]).
  - reflexivity.
  - lia.
  - intros x [<-|[<-|[]]]; exists good_offer; vm_compute; reflexivity.
Defined.

(** Offers come from a list only: every other shape of decoded response
    gives no offer or raises. *)
Lemma offers_of_shape raw infos :
  offers_of raw = Return infos ->
  infos <> [] ->
  exists items, raw = PList items /\ List.length infos = List.length items.
Proof.
  intros Ho Hne. destruct raw as [| | | |s|items|kvs]; try discriminate Ho.
  - destruct s as [|c s]; simpl in Ho.
    + injection Ho as <-. contradiction.
    + discriminate Ho.
  - exists items. split; [reflexivity|].
    apply (comprehension_length extract_flight_info). exact Ho.
  - destruct kvs as [|[k v] kvs]; simpl in Ho.
    + injection Ho as <-. contradiction.
    + discriminate Ho.
Qed.

(** X7.  Offers can only come from a JSON array.  If a search stores a
    non-empty list of offers, the reply's body decoded to a list with as many
    items; a JSON object, string, number, boolean or null never yields an
    offer. *)
Theorem X7_offers_only_from_a_list :
  forall (key : string) (net : network) (self : BestFlights) (w : world),
    let result := search_and_set_flights key net (self, w) in
    fst result = Return (PBool true) ->
    search_results (fst (snd result)) <> [] ->
    exists status items,
      net (sent key (flight_plan self)) = Reply status (Json (PList items))
      /\ List.length (search_results (fst (snd result))) = List.length items.
Proof.
  intros key net self w result. subst result.
  rewrite search_and_set_flights_run. unfold raw_results. simpl.
  rewrite response_of_by_reply.
  destruct (net (sent key (flight_plan self))) as [|status text];
    simpl; [discriminate|].
  destruct ((400 <=? status) && (status <? 600)); simpl; [discriminate|].
  destruct text as [|j]; simpl; [discriminate|].
  destruct (offers_of j) as [infos|e] eqn:Ho; simpl; [|discriminate].
  intros _ Hne.
  destruct (offers_of_shape j infos Ho Hne) as (items & -> & Hlen).
  exists status, items. split; [reflexivity|exact Hlen].
Qed.

Lemma X7_witness :
  exists status items,
    two_good (sent "k" lax_hnd_nrt_lax) = Reply status (Json (PList items))
    /\ 2%nat = List.length items.
Proof.
  apply (X7_offers_only_from_a_list "k" two_good (fresh lax_hnd_nrt_lax) quiet).
  - reflexivity.
  - vm_compute. discriminate.
Defined.

(** X8.  A search replaces the offers, it does not add to them: searching
    an entry again against the same remote answers returns the same value
    and leaves the entry exactly as the first search left it. *)
Theorem X8_searching_again_changes_nothing :
  forall (key : string) (net : network) (self : BestFlights) (w : world),
    let once := search_and_set_flights key net (self, w) in
    let twice := search_and_set_flights key net (snd once) in
    fst twice = fst once /\ fst (snd twice) = fst (snd once).
Proof.
  intros key net self w once twice. subst twice once.
  rewrite (search_and_set_flights_run key net self w).
  unfold raw_results. simpl.
  destruct (response_of key net (flight_plan self)) as [j|e] eqn:Hj; simpl.
  - destruct (offers_of j) as [infos|e] eqn:Ho; simpl.
    + rewrite search_and_set_flights_run. unfold raw_results. simpl.
      rewrite Hj. simpl. rewrite Ho. split; reflexivity.
    + rewrite search_and_set_flights_run. unfold raw_results. simpl.
      rewrite Hj. simpl. rewrite Ho. split; reflexivity.
  - rewrite search_and_set_flights_run. unfold raw_results. simpl.
    rewrite Hj. split; reflexivity.
Qed.

(** ** The extractor and the shape of a record *)

(** X9.  The extractor looks at four keys only.  Two records that agree on
    price, duration, quality and deep_link give the same result, an offer or
    an exception, whatever other keys they carry and in whatever order. *)
Theorem X9_extract_reads_four_keys_only :
  forall kvs1 kvs2 : list (string * pyobj),
    assoc "price" kvs1 = assoc "price" kvs2 ->
    assoc "duration" kvs1 = assoc "duration" kvs2 ->
    assoc "quality" kvs1 = assoc "quality" kvs2 ->
    assoc "deep_link" kvs1 = assoc "deep_link" kvs2 ->
    extract_flight_info (PDict kvs1) = extract_flight_info (PDict kvs2).
Proof.
  intros kvs1 kvs2 Hp Hd Hq Hl. unfold extract_flight_info, getitem.
  rewrite Hp, Hd, Hq, Hl. reflexivity.
Qed.

Lemma X9_witness :
  extract_flight_info
    (PDict [ ("id", PStr "a1"); ("deep_link", PStr "http://x");
             ("price", PInt 450); ("quality", PInt 7);
             ("duration", PInt 36000) ])
  = extract_flight_info
      (PDict [ ("price", PInt 450); ("duration", PInt 36000);
               ("quality", PInt 7); ("deep_link", PStr "http://x");
               ("route", PList []) ]).
Proof.
  exact (X9_extract_reads_four_keys_only
           [ ("id", PStr "a1"); ("deep_link", PStr "http://x");
             ("price", PInt 450); ("quality", PInt 7);
             ("duration", PInt 36000) ]
           [ ("price", PInt 450); ("duration", PInt 36000);
             ("quality", PInt 7); ("deep_link", PStr "http://x");
             ("route", PList []) ]
           eq_refl eq_refl eq_refl eq_refl).
Defined.

(** Is this decoded value a number for Python's [/]? *)
Definition is_number (o : pyobj) : bool :=
  match o with
  | PInt _ | PFloat _ | PBool _ => true
  | _ => false
  end.

(** X10.  What the duration may be.  On a record that has the four fields:
    a duration that is not a number (a string, null, a list, an object)
    makes the extractor raise [TypeError]; a float duration never raises,
    whatever the float, and is divided in binary64; a boolean duration counts
    as 0 or 1 second and gives a duration of zero hours. *)
Theorem X10_duration_by_type :
  forall (kvs : list (string * pyobj)) (p s q l : pyobj),
    assoc "price" kvs = Some p ->
    assoc "duration" kvs = Some s ->
    assoc "quality" kvs = Some q ->
    assoc "deep_link" kvs = Some l ->
    (is_number s = false ->
     extract_flight_info (PDict kvs) = Raise TypeError)
    /\ (forall f, s = PFloat f ->
          extract_flight_info (PDict kvs)
          = Return {| price := p;
                      duration :=
                        PyFloat.round (PyFloat.div f (PyFloat.of_Z 3600)) 2;
                      quality := q; link := l |})
    /\ (forall b, s = PBool b ->
          extract_flight_info (PDict kvs)
          = Return {| price := p; duration := S754_zero false;
                      quality := q; link := l |}).
Proof.
  intros kvs p s q l Hp Hs Hq Hl.
  rewrite (extract_flight_info_fields kvs p s q l Hp Hs Hq Hl).
  split; [|split].
  - intro Hnum. destruct s; try discriminate Hnum; reflexivity.
  - intros f ->. reflexivity.
  - intros b ->. destruct b; vm_compute; reflexivity.
Qed.

Lemma X10_witness :
  extract_flight_info
    (PDict [ ("price", PInt 450); ("duration", PStr "10h");
             ("quality", PInt 7); ("deep_link", PStr "http://x") ])
  = Raise TypeError.
Proof.
  exact (proj1 (X10_duration_by_type
                  [ ("price", PInt 450); ("duration", PStr "10h");
                    ("quality", PInt 7); ("deep_link", PStr "http://x") ]
                  (PInt 450) (PStr "10h") (PInt 7) (PStr "http://x")
                  eq_refl eq_refl eq_refl eq_refl) eq_refl).
Defined.

(** ** The batch, further *)
Section BatchFrame.
Variables (key : string) (nets : nat -> network).

Lemma search_and_set_flights_files net self w :
  files (snd (snd (search_and_set_flights key net (self, w)))) = files w.
Proof.
  rewrite search_and_set_flights_run. unfold raw_results. simpl.
  destruct (response_of key net (flight_plan self)) as [j|e]; simpl.
  - destruct (offers_of j); reflexivity.
  - reflexivity.
Qed.

Lemma run_searches_files plans : forall start w,
  files (snd (run_searches key nets start plans w)) = files w.
Proof.
  induction plans as [|f rest IH]; intros start w; simpl.
  - reflexivity.
  - pose proof (search_and_set_flights_files (nets start) f w) as Hf.
    destruct (search_and_set_flights key (nets start) (f, w)) as [r [f' w']].
    simpl in Hf. specialize (IH (S start) w').
    destruct (run_searches key nets (S start) rest w') as [rest' w''].
    simpl in *. congruence.
Qed.

Lemma searched_failed net bf :
  (forall infos, ~ succeeds key net (flight_plan bf) infos) ->
  searched key net bf = bf.
Proof.
  intro Hfail. unfold searched.
  destruct (search_and_set_flights_cases key net bf quiet)
    as [(infos & Hs & _)|(_ & _ & Hsame)].
  - destruct (Hfail infos Hs).
  - exact Hsame.
Qed.

Lemma run_searches_all_failed plans : forall start w,
  (forall i bf, nth_error plans i = Some bf ->
     forall infos, ~ succeeds key (nets (start + i)%nat) (flight_plan bf) infos) ->
  fst (run_searches key nets start plans w) = plans.
Proof.
  induction plans as [|f rest IH]; intros start w Hfail; simpl.
  - reflexivity.
  - pose proof (search_and_set_flights_self key (nets start) f w) as Hf.
    destruct (search_and_set_flights key (nets start) (f, w)) as [r [f' w']].
    simpl in Hf.
    specialize (IH (S start) w').
    destruct (run_searches key nets (S start) rest w') as [rest' w''].
    simpl in *. f_equal.
    + rewrite Hf. apply searched_failed.
      specialize (Hfail 0%nat f eq_refl). rewrite Nat.add_0_r in Hfail.
      exact Hfail.
    + apply IH. intros i bf Hi.
      replace (S (start + i))%nat with (start + S i)%nat by lia.
      apply (Hfail (S i) bf Hi).
Qed.
End BatchFrame.

(** X11.  Searching a batch never creates or changes a file, and a batch
    whose searches all fail comes out exactly as it went in: same entries,
    same offers, same order. *)
Theorem X11_failed_batch_is_unchanged :
  forall (key : string) (nets : nat -> network)
         (batch : AllOptionsForJapan) (w : world),
    files (snd (search_and_set_best_flights key nets batch w)) = files w
    /\ ((forall i bf,
           nth_error (all_flight_plans batch) i = Some bf ->
           forall infos, ~ succeeds key (nets i) (flight_plan bf) infos) ->
        fst (search_and_set_best_flights key nets batch w) = batch).
Proof.
  intros key nets batch w. unfold search_and_set_best_flights.
  pose proof (run_searches_files key nets (all_flight_plans batch) 0%nat w) as Hfiles.
  pose proof (run_searches_all_failed key nets (all_flight_plans batch) 0%nat w)
    as Hsame.
  destruct (run_searches key nets 0 (all_flight_plans batch) w) as [plans w'].
  simpl in *. split; [exact Hfiles|].
  intro Hfail. rewrite (Hsame Hfail). destruct batch; reflexivity.
Qed.

Lemma X11_witness :
  fst (search_and_set_best_flights "k" (fun _ => unreachable) two_entries quiet)
  = two_entries.
Proof.
  apply (proj2 (X11_failed_batch_is_unchanged
                  "k" (fun _ => unreachable) two_entries quiet)).
  intros i bf Hi infos (j & Hj & _). vm_compute in Hj. discriminate Hj.
Defined.

(** ** The exporter, further *)

(** What a computation leaves alone: the file called [other]. *)
Definition keeps {A} (other : string) (m : Run.M world A) : Prop :=
  forall w, read_file other (files (snd (m w))) = read_file other (files w).

Section ExportFrame.
Variables name other : string.
Hypothesis other_name : String.eqb other name = false.

Lemma read_file_write_other rows w :
  read_file other (files (write_file name rows w)) = read_file other (files w).
Proof. unfold write_file. simpl. rewrite other_name. reflexivity. Qed.

Lemma keeps_bind {A B} (m : Run.M world A) (k : A -> Run.M world B) :
  keeps other m -> (forall a, keeps other (k a)) -> keeps other (Run.bind m k).
Proof.
  intros Hm Hk w. unfold Run.bind.
  specialize (Hm w). destruct (m w) as [[a|e] w1]; simpl in *.
  - rewrite (Hk a w1). exact Hm.
  - exact Hm.
Qed.

Lemma keeps_ret {A} (a : A) : keeps other (Run.ret a).
Proof. intro w. reflexivity. Qed.

Lemma keeps_open_w fault : keeps other (open_w fault name).
Proof.
  intro w. unfold open_w.
  destruct fault; simpl; try rewrite other_name; reflexivity.
Qed.

Lemma keeps_writerow fault r : keeps other (writerow fault name r).
Proof.
  intro w. unfold writerow.
  destruct (refuses fault (List.length (written name w))); simpl;
    rewrite other_name; reflexivity.
Qed.

Lemma keeps_writerows fault rs : keeps other (writerows fault name rs).
Proof.
  induction rs as [|r rs IH]; simpl.
  - apply keeps_ret.
  - apply keeps_bind; [apply keeps_writerow|intros _; exact IH].
Qed.

Lemma keeps_print_w l : keeps other (print_w l).
Proof. intro w. reflexivity. Qed.

Lemma to_csv_keeps fault self : keeps other (to_csv fault self name).
Proof.
  unfold to_csv.
  apply keeps_bind; [apply keeps_open_w|intros _].
  apply keeps_bind; [apply keeps_writerow|intros _].
  apply keeps_bind; [apply keeps_writerows|intros _].
  apply keeps_bind; [apply keeps_print_w|intros _].
  apply keeps_ret.
Qed.
End ExportFrame.

Lemma to_csv_frame fault self name other w :
  String.eqb other name = false ->
  read_file other (files (snd (to_csv fault self name w)))
  = read_file other (files w).
Proof. intro Hne. exact (to_csv_keeps name other Hne fault self w). Qed.

(** X12.  An export touches one file only: whatever happens to the write of
    [name], every file under another name reads as it did before. *)
Theorem X12_to_csv_leaves_other_files :
  forall (fault : io_fault) (self : AllOptionsForJapan)
         (name other : string) (w : world),
    other <> name ->
    read_file other (files (snd (to_csv fault self name w)))
    = read_file other (files w).
Proof.
  intros fault self name other w Hne.
  apply to_csv_frame. apply String.eqb_neq. exact Hne.
Qed.

Definition one_old_file : world :=
  {| stdout := []; files := [("old.csv", [[CStr "kept"]])] |}.

Lemma X12_witness :
  read_file "old.csv"
    (files (snd (to_csv (WriteFails 1 cut_in_second_row) two_entries
                   "flights.csv" one_old_file)))
  = Some [[CStr "kept"]].
Proof.
  apply (X12_to_csv_leaves_other_files
           (WriteFails 1 cut_in_second_row) two_entries
           "flights.csv" "old.csv" one_old_file).
  discriminate.
Defined.

(** X13.  A successful export overwrites: the file's content afterwards is
    the header and the rows of the exported batch, whatever the file held
    before; so exporting over an earlier export (of any batch) gives the same
    file as exporting afresh, and exporting the same batch twice gives the
    same file as once. *)
Theorem X13_to_csv_overwrites :
  forall (self earlier : AllOptionsForJapan) (name : string) (w : world),
    written name (snd (to_csv NoFault self name w))
    = csv_header :: csv_rows self
    /\ written name
         (snd (to_csv NoFault self name (snd (to_csv NoFault earlier name w))))
       = written name (snd (to_csv NoFault self name w)).
Proof.
  intros self earlier name w.
  destruct (to_csv_through name NoFault self w) as (w1 & H1 & R1 & _);
    [discriminate|reflexivity|].
  destruct (to_csv_through name NoFault self
              (snd (to_csv NoFault earlier name w))) as (w2 & H2 & R2 & _);
    [discriminate|reflexivity|].
  rewrite H1, H2. simpl. rewrite R1, R2. split; reflexivity.
Qed.

(** ** The generator, further *)
Section Distinct.
Context {A B : Type}.

Lemma NoDup_map_on (f : A -> B) (l : list A) :
  NoDup l ->
  (forall x y, In x l -> In y l -> f x = f y -> x = y) ->
  NoDup (map f l).
Proof.
  intros Hl. induction Hl as [|x l Hx Hl IH]; intro Hinj; simpl.
  - constructor.
  - constructor.
    + intro Hin. apply in_map_iff in Hin as (y & Hy & Hin).
      apply Hx. rewrite (Hinj x y); auto; [left|right]; auto.
    + apply IH. intros a b Ha Hb. apply Hinj; right; assumption.
Qed.

Lemma NoDup_flat_map_on (f : A -> list B) (l : list A) :
  NoDup l ->
  (forall x, In x l -> NoDup (f x)) ->
  (forall x y b, In x l -> In y l -> In b (f x) -> In b (f y) -> x = y) ->
  NoDup (flat_map f l).
Proof.
  intros Hl. induction Hl as [|x l Hx Hl IH]; intros Hin Hsep; simpl.
  - constructor.
  - apply NoDup_app.
    + apply Hin. left. reflexivity.
    + apply IH.
      * intros y Hy. apply Hin. right. exact Hy.
      * intros a b c Ha Hb. apply Hsep; right; assumption.
    + intros b Hb Hb'. apply in_flat_map in Hb' as (y & Hy & Hby).
      apply Hx. rewrite (Hsep x y b); auto; [left|right]; auto.
Qed.
End Distinct.

(** X16.  Itineraries are unique within a generated group: when no port is
    listed twice among the origins nor among the destinations, no itinerary
    occurs twice in the result. *)
Theorem X16_all_flight_options_distinct :
  forall (us_ports japan_ports : list string) (d_from d_to : date),
    NoDup us_ports -> NoDup japan_ports ->
    NoDup (all_flight_options us_ports japan_ports d_from d_to).
Proof.
  intros us_ports japan_ports d_from d_to Hus Hjp.
  unfold all_flight_options.
  apply NoDup_flat_map_on; [exact Hus| |].
  - intros a1 _. apply NoDup_flat_map_on; [exact Hjp| |].
    + intros b1 _. apply NoDup_flat_map_on; [exact Hjp| |].
      * intros b2 _. apply NoDup_map_on; [exact Hus|].
        intros x y _ _ Heq. injection Heq as ->. reflexivity.
      * intros x y it _ _ Hx Hy.
        apply in_map_iff in Hx as (? & <- & _).
        apply in_map_iff in Hy as (? & Heq & _).
        injection Heq as -> _. reflexivity.
    + intros x y it _ _ Hx Hy.
      apply in_flat_map in Hx as (? & _ & Hx).
      apply in_map_iff in Hx as (? & <- & _).
      apply in_flat_map in Hy as (? & _ & Hy).
      apply in_map_iff in Hy as (? & Heq & _).
      injection Heq as -> _ _. reflexivity.
  - intros x y it _ _ Hx Hy.
    apply in_flat_map in Hx as (? & _ & Hx).
    apply in_flat_map in Hx as (? & _ & Hx).
    apply in_map_iff in Hx as (? & <- & _).
    apply in_flat_map in Hy as (? & _ & Hy).
    apply in_flat_map in Hy as (? & _ & Hy).
    apply in_map_iff in Hy as (? & Heq & _).
    injection Heq as -> _ _ _. reflexivity.
Qed.

Lemma NoDup_of_nodup_check (l : list string) :
  nodup string_dec l = l -> NoDup l.
Proof. intro H. rewrite <- H. apply NoDup_nodup. Qed.

Lemma X16_witness :
  NoDup (all_flight_options ["LAX"; "SFO"] ["HND"; "NRT"; "KIX"]
           {| year := 2024; month := 3; day := 22 |}
           {| year := 2024; month := 4; day := 1 |}).
Proof.
  apply X16_all_flight_options_distinct;
    apply NoDup_of_nodup_check; vm_compute; reflexivity.
Defined.

(** ** The time stamp of the file names *)

Local Open Scope string_scope.
Local Open Scope Z_scope.

Record datetime : Type := {
  on : date;
  hour : Z;
  minute : Z;
  second : Z
}.

(** The values [datetime.now()] can return. *)
Definition valid_datetime (t : datetime) : bool :=
  valid_date (on t) &&
  (0 <=? hour t) && (hour t <? 24) &&
  (0 <=? minute t) && (minute t <? 60) &&
  (0 <=? second t) && (second t <? 60).

(** [strftime] on a [datetime]: the directives of a date, and [%H], [%M],
    [%S] zero-padded to two digits. *)
Definition directive_of_time (c : ascii) (t : datetime) : string :=
  if Ascii.eqb c "H" then pad2 (hour t)
  else if Ascii.eqb c "M" then pad2 (minute t)
  else if Ascii.eqb c "S" then pad2 (second t)
  else directive c (on t).

Fixpoint strftime_datetime (t : datetime) (fmt : string) : string :=
  match fmt with
  | "" => ""
  | String c rest =>
      if Ascii.eqb c "%" then
        match rest with
        | String c' rest' => directive_of_time c' t ++ strftime_datetime t rest'
        | "" => "%"
        end
      else String c (strftime_datetime t rest)
  end.

(** [curDateTimeStr()], at the moment [now]. *)
Definition curDateTimeStr (now : datetime) : string :=
  strftime_datetime now "%Y%m%d_%H%M".

(** Reading a stamp back: the year up to nine characters before the end,
    then month, day, an underscore, hour and minute. *)
Definition parse_stamp (s : string) : option (date * Z * Z) :=
  let k := (String.length s - 9)%nat in
  if has_at (k + 4) "_" s then
    match decimal (substring 0 k s), decimal (substring k 2 s),
          decimal (substring (k + 2) 2 s), decimal (substring (k + 5) 2 s),
          decimal (substring (k + 7) 2 s) with
    | Some y, Some m, Some d, Some hh, Some mm =>
        Some ({| year := y; month := m; day := d |}, hh, mm)
    | _, _, _, _, _ => None
    end
  else None.

Section Appended.
Variables a b : string.

Lemma length_appended :
  String.length (a ++ b) = (String.length a + String.length b)%nat.
Proof.
  induction a as [|c a' IH]; simpl; [reflexivity|]. rewrite IH. reflexivity.
Qed.

Lemma substring_appended_head :
  substring 0 (String.length a) (a ++ b) = a.
Proof.
  induction a as [|c a' IH]; simpl.
  - destruct b; reflexivity.
  - rewrite IH. reflexivity.
Qed.

Lemma substring_appended_tail (i m : nat) :
  substring (String.length a + i) m (a ++ b) = substring i m b.
Proof.
  induction a as [|c a' IH]; simpl; [reflexivity|]. exact IH.
Qed.

Lemma substring_appended_at (m : nat) :
  substring (String.length a) m (a ++ b) = substring 0 m b.
Proof.
  induction a as [|c a' IH]; simpl; [reflexivity|]. exact IH.
Qed.

Lemma has_at_appended_tail (i : nat) (c : ascii) :
  has_at (String.length a + i) c (a ++ b) = has_at i c b.
Proof.
  unfold has_at. induction a as [|c' a' IH]; simpl; [reflexivity|]. exact IH.
Qed.
End Appended.

Lemma curDateTimeStr_shape t :
  curDateTimeStr t
  = year_digits (year (on t))
    ++ (pad2 (month (on t)) ++ pad2 (day (on t)) ++ "_"
        ++ pad2 (hour t) ++ pad2 (minute t)).
Proof. reflexivity. Qed.

Lemma parse_stamp_curDateTimeStr t :
  valid_datetime t = true ->
  parse_stamp (curDateTimeStr t) = Some (on t, hour t, minute t).
Proof.
  unfold valid_datetime. intro Hv.
  do 6 (apply andb_prop in Hv as [Hv ?]).
  apply valid_date_bounds in Hv as (Hy & Hm & Hd).
  pose proof (year_digits_decimal (year (on t))) as HY.
  rewrite curDateTimeStr_shape.
  set (Y := year_digits (year (on t))) in *.
  set (T := pad2 (month (on t)) ++ pad2 (day (on t)) ++ "_"
            ++ pad2 (hour t) ++ pad2 (minute t)).
  unfold parse_stamp. rewrite length_appended.
  change (String.length T) with 9%nat.
  replace (String.length Y + 9 - 9)%nat with (String.length Y) by lia.
  rewrite substring_appended_head, substring_appended_at.
  rewrite !substring_appended_tail, has_at_appended_tail.
  change (has_at 4 "_" T) with true.
  change (substring 0 2 T) with (pad2 (month (on t))).
  change (substring 2 2 T) with (pad2 (day (on t))).
  change (substring 5 2 T) with (pad2 (hour t)).
  change (substring 7 2 T) with (pad2 (minute t)).
  rewrite HY, !pad2_decimal by lia.
  destruct (on t); reflexivity.
Qed.

(** X17.  The stamp is the moment up to the minute.  It reads back as the
    date, hour and minute of the moment it was taken at, so two moments get
    the same stamp exactly when they fall in the same minute; the seconds are
    not in it. *)
Theorem X17_curDateTimeStr_to_the_minute :
  forall t1 t2 : datetime,
    valid_datetime t1 = true ->
    valid_datetime t2 = true ->
    parse_stamp (curDateTimeStr t1) = Some (on t1, hour t1, minute t1)
    /\ (curDateTimeStr t1 = curDateTimeStr t2 <->
        on t1 = on t2 /\ hour t1 = hour t2 /\ minute t1 = minute t2).
Proof.
  intros t1 t2 H1 H2.
  pose proof (parse_stamp_curDateTimeStr t1 H1) as P1.
  pose proof (parse_stamp_curDateTimeStr t2 H2) as P2.
  split; [exact P1|]. split.
  - intro Heq. rewrite Heq in P1.
    assert (Hsame : (on t1, hour t1, minute t1) = (on t2, hour t2, minute t2))
      by congruence.
    injection Hsame as -> -> ->. repeat split.
  - intros (Hon & Hh & Hm).
    unfold curDateTimeStr. cbn. rewrite Hon, Hh, Hm. reflexivity.
Qed.

Example curDateTimeStr_year_999 :
  curDateTimeStr {| on := {| year := 999; month := 1; day := 5 |};
                    hour := 0; minute := 0; second := 0 |}
  = "9990105_0000".
Proof. reflexivity. Qed.

Definition noon : datetime :=
  {| on := {| year := 2024; month := 1; day := 5 |};
     hour := 12; minute := 0; second := 7 |}.

Definition noon_later : datetime :=
  {| on := {| year := 2024; month := 1; day := 5 |};
     hour := 12; minute := 0; second := 59 |}.

Lemma X17_witness :
  parse_stamp "20240105_1200"
  = Some ({| year := 2024; month := 1; day := 5 |}, 12, 0)
  /\ curDateTimeStr noon = curDateTimeStr noon_later.
Proof.
  split.
  - exact (proj1 (X17_curDateTimeStr_to_the_minute noon noon_later
                    eq_refl eq_refl)).
  - apply (proj2 (X17_curDateTimeStr_to_the_minute noon noon_later
                    eq_refl eq_refl)).
    repeat split.
Defined.

(** ** The entry point *)

(** [best.search_and_set_best_flights()] as a step of [main]: the batch is
    updated in place and the call returns nothing of use. *)
Definition searching (key : string) (nets : nat -> network)
    (best : AllOptionsForJapan) : Run.M world AllOptionsForJapan :=
  fun w =>
    let '(best', w') := search_and_set_best_flights key nets best w in
    (Return best', w').

(** [main()].  The remote side as each group's searches meet it, the clock
    at each of the two calls to [curDateTimeStr], and what the operating
    system does to each of the two files, are given from outside. *)
Definition main (key : string)
    (socal_nets norcal_nets : nat -> network)
    (socal_now norcal_now : datetime)
    (socal_fault norcal_fault : io_fault) : Run.M world unit :=
  let socal_ports := ["LAX"] in
  let norcal_ports := ["SFO"] in
  let japan_ports := ["HND"; "NRT"; "FUK"; "KIX"; "NGO"; "CTS"] in
  let date_from := {| year := 2024; month := 3; day := 22 |} in
  let date_to := {| year := 2024; month := 4; day := 1 |} in
  let all_socal_options :=
    all_flight_options socal_ports japan_ports date_from date_to in
  let all_norcal_options :=
    all_flight_options norcal_ports japan_ports date_from date_to in
  let best_socal_flights :=
    {| all_flight_plans :=
         map (fun f => {| flight_plan := f; search_results := [] |})
             all_socal_options |} in
  let best_norcal_flights :=
    {| all_flight_plans :=
         map (fun f => {| flight_plan := f; search_results := [] |})
             all_norcal_options |} in
  best_socal_flights <- searching key socal_nets best_socal_flights ;;
  to_csv socal_fault best_socal_flights
    ("socal_flights_" ++ curDateTimeStr socal_now ++ ".csv") ;;;
  best_norcal_flights <- searching key norcal_nets best_norcal_flights ;;
  to_csv norcal_fault best_norcal_flights
    ("norcal_flights_" ++ curDateTimeStr norcal_now ++ ".csv") ;;;
  Run.ret tt.

(** The group [main] builds for a list of origin ports, before any search. *)
Definition group_of (ports : list string) : AllOptionsForJapan :=
  {| all_flight_plans :=
       map fresh
         (all_flight_options ports ["HND"; "NRT"; "FUK"; "KIX"; "NGO"; "CTS"]
            {| year := 2024; month := 3; day := 22 |}
            {| year := 2024; month := 4; day := 1 |}) |}.

Definition socal_name (now : datetime) : string :=
  "socal_flights_" ++ curDateTimeStr now ++ ".csv".

Definition norcal_name (now : datetime) : string :=
  "norcal_flights_" ++ curDateTimeStr now ++ ".csv".

Lemma group_names_differ t t' : String.eqb (socal_name t) (norcal_name t') = false.
Proof. reflexivity. Qed.

Section Main.
Variables (key : string) (socal_nets norcal_nets : nat -> network).
Variables (socal_now norcal_now : datetime).

(** The group of SoCal entries after its searches, and the world then. *)
Definition socal_found (w : world) : AllOptionsForJapan * world :=
  search_and_set_best_flights key socal_nets (group_of ["LAX"]) w.

Definition norcal_found (w : world) : AllOptionsForJapan * world :=
  search_and_set_best_flights key norcal_nets (group_of ["SFO"]) w.

Lemma main_run socal_fault norcal_fault (w : world) :
  main key socal_nets norcal_nets socal_now norcal_now
       socal_fault norcal_fault w
  = let first := to_csv socal_fault (fst (socal_found w))
                   (socal_name socal_now) (snd (socal_found w)) in
    match fst first with
    | Raise e => (Raise e, snd first)
    | Return _ =>
        let second :=
          to_csv norcal_fault (fst (norcal_found (snd first)))
            (norcal_name norcal_now) (snd (norcal_found (snd first))) in
        match fst second with
        | Raise e => (Raise e, snd second)
        | Return _ => (Return tt, snd second)
        end
    end.
Proof.
  unfold main, socal_found, norcal_found, group_of, fresh,
    socal_name, norcal_name.
  cbv zeta. unfold Run.bind, searching, Run.ret.
  destruct (search_and_set_best_flights key socal_nets _ w) as [b1 w1].
  cbn [fst snd].
  destruct (to_csv socal_fault b1 _ w1) as [[r1|e1] w2];
    cbn [fst snd]; [|reflexivity].
  destruct (search_and_set_best_flights key norcal_nets _ w2) as [b2 w3].
  cbn [fst snd].
  destruct (to_csv norcal_fault b2 _ w3) as [[r2|e2] w4]; reflexivity.
Qed.
End Main.

Local Open Scope list_scope.

Section Composition.
Variables (key : string) (nets : nat -> network).

Lemma best_flights_files batch w :
  files (snd (search_and_set_best_flights key nets batch w)) = files w.
Proof.
  unfold search_and_set_best_flights.
  pose proof (run_searches_files key nets (all_flight_plans batch) 0%nat w) as H.
  destruct (run_searches key nets 0 (all_flight_plans batch) w). exact H.
Qed.

Lemma best_flights_nth batch w i bf :
  nth_error (all_flight_plans batch) i = Some bf ->
  nth_error (all_flight_plans (fst (search_and_set_best_flights key nets batch w))) i
  = Some (searched key (nets i) bf).
Proof.
  intro Hi. unfold search_and_set_best_flights.
  pose proof (run_searches_nth key nets (all_flight_plans batch) 0%nat w i bf Hi)
    as H.
  destruct (run_searches key nets 0 (all_flight_plans batch) w). exact H.
Qed.

Lemma run_searches_plans plans : forall start w,
  map flight_plan (fst (run_searches key nets start plans w))
  = map flight_plan plans.
Proof.
  induction plans as [|f rest IH]; intros start w; simpl.
  - reflexivity.
  - pose proof (search_and_set_flights_self key (nets start) f w) as Hf.
    destruct (search_and_set_flights key (nets start) (f, w)) as [r [f' w']].
    simpl in Hf. specialize (IH (S start) w').
    destruct (run_searches key nets (S start) rest w') as [rest' w''].
    simpl in *. rewrite IH, Hf.
    rewrite (proj1 (searched_offers key (nets start) f)). reflexivity.
Qed.

Lemma run_searches_any_world plans : forall start w w',
  fst (run_searches key nets start plans w)
  = fst (run_searches key nets start plans w').
Proof.
  induction plans as [|f rest IH]; intros start w w'; simpl.
  - reflexivity.
  - pose proof (search_and_set_flights_self key (nets start) f w) as Hf.
    pose proof (search_and_set_flights_self key (nets start) f w') as Hf'.
    destruct (search_and_set_flights key (nets start) (f, w)) as [r [f1 w1]].
    destruct (search_and_set_flights key (nets start) (f, w')) as [r' [f1' w1']].
    simpl in Hf, Hf'. specialize (IH (S start) w1 w1').
    destruct (run_searches key nets (S start) rest w1) as [rest1 w2].
    destruct (run_searches key nets (S start) rest w1') as [rest1' w2'].
    simpl in *. congruence.
Qed.

Lemma best_flights_any_world batch w w' :
  fst (search_and_set_best_flights key nets batch w)
  = fst (search_and_set_best_flights key nets batch w').
Proof.
  unfold search_and_set_best_flights.
  pose proof (run_searches_any_world (all_flight_plans batch) 0%nat w w') as H.
  destruct (run_searches key nets 0 (all_flight_plans batch) w).
  destruct (run_searches key nets 0 (all_flight_plans batch) w').
  simpl in *. rewrite H. reflexivity.
Qed.

Lemma best_flights_plans batch w :
  map flight_plan
    (all_flight_plans (fst (search_and_set_best_flights key nets batch w)))
  = map flight_plan (all_flight_plans batch).
Proof.
  unfold search_and_set_best_flights.
  pose proof (run_searches_plans (all_flight_plans batch) 0%nat w) as H.
  destruct (run_searches key nets 0 (all_flight_plans batch) w). exact H.
Qed.
End Composition.

(** X18.  When both files can be written, [main] ends normally with two
    files, whatever the remote side answered and whatever the clock showed:
    the SoCal file holds the header and the rows of the LAX group as its
    searches left it, the NorCal file the header and the rows of the SFO
    group as its searches left it, and the second export has not disturbed
    the first, since the two names never coincide. *)
Theorem X18_main_writes_both_files :
  forall (key : string) (socal_nets norcal_nets : nat -> network)
         (socal_now norcal_now : datetime) (w : world),
  exists w' : world,
    main key socal_nets norcal_nets socal_now norcal_now NoFault NoFault w
    = (Return tt, w')
    /\ written ("socal_flights_" ++ curDateTimeStr socal_now ++ ".csv")%string w'
       = csv_header
         :: csv_rows
              (fst (search_and_set_best_flights key socal_nets
                      {| all_flight_plans :=
                           map fresh
                             (all_flight_options ["LAX"]
                                ["HND"; "NRT"; "FUK"; "KIX"; "NGO"; "CTS"]
                                {| year := 2024; month := 3; day := 22 |}
                                {| year := 2024; month := 4; day := 1 |}) |}
                      w))
    /\ written ("norcal_flights_" ++ curDateTimeStr norcal_now ++ ".csv")%string w'
       = csv_header
         :: csv_rows
              (fst (search_and_set_best_flights key norcal_nets
                      {| all_flight_plans :=
                           map fresh
                             (all_flight_options ["SFO"]
                                ["HND"; "NRT"; "FUK"; "KIX"; "NGO"; "CTS"]
                                {| year := 2024; month := 3; day := 22 |}
                                {| year := 2024; month := 4; day := 1 |}) |}
                      w)).
Proof.
  intros key socal_nets norcal_nets socal_now norcal_now w.
  fold (group_of ["LAX"]). fold (group_of ["SFO"]).
  fold (socal_name socal_now). fold (norcal_name norcal_now).
  rewrite main_run. cbv zeta.
  set (s1 := socal_found key socal_nets w).
  destruct (to_csv_through (socal_name socal_now) NoFault (fst s1) (snd s1))
    as (w2 & Hrun1 & Hrows1 & _); [discriminate|reflexivity|].
  rewrite Hrun1. cbn [fst snd].
  set (s2 := norcal_found key norcal_nets w2).
  destruct (to_csv_through (norcal_name norcal_now) NoFault (fst s2) (snd s2))
    as (w4 & Hrun2 & Hrows2 & _); [discriminate|reflexivity|].
  pose proof (to_csv_frame NoFault (fst s2) (norcal_name norcal_now)
                (socal_name socal_now) (snd s2)
                (group_names_differ socal_now norcal_now)) as Hkept.
  rewrite Hrun2 in *. cbn [fst snd] in *.
  exists w4.
  split; [reflexivity|]. split.
  - unfold written in *. rewrite Hkept.
    subst s2. unfold norcal_found. rewrite best_flights_files. exact Hrows1.
  - rewrite Hrows2. subst s2. unfold norcal_found.
    rewrite (best_flights_any_world key norcal_nets (group_of ["SFO"]) w2 w).
    reflexivity.
Qed.

Lemma X18_witness :
  exists w' : world,
    main "k" (fun _ => two_good) (fun _ => unreachable) noon noon_later
         NoFault NoFault quiet
    = (Return tt, w')
    /\ written "socal_flights_20240105_1200.csv" w'
       = csv_header
         :: csv_rows
              (fst (search_and_set_best_flights "k" (fun _ => two_good)
                      (group_of ["LAX"]) quiet))
    /\ written "norcal_flights_20240105_1200.csv" w'
       = csv_header
         :: csv_rows
              (fst (search_and_set_best_flights "k" (fun _ => unreachable)
                      (group_of ["SFO"]) quiet)).
Proof.
  exact (X18_main_writes_both_files "k" (fun _ => two_good)
           (fun _ => unreachable) noon noon_later quiet).
Defined.

(** X19.  A failed first export ends the run.  When the SoCal file cannot
    be opened, or one of its rows is refused (whatever the refused write
    leaves in the file), [main] raises [OSError] and
    nothing of the NorCal half happens: the outcome and the world are the
    same whatever the remote side would have answered for SFO, whatever the
    clock would have shown and whatever would have happened to the second
    file, and no NorCal file is touched. *)
Theorem X19_failed_first_export_ends_main :
  forall (key : string) (socal_nets : nat -> network)
         (socal_now : datetime) (socal_fault : io_fault) (w : world),
    (socal_fault = OpenFails
     \/ exists n kept,
          socal_fault = WriteFails n kept /\
          (n <= List.length
                  (csv_rows (fst (socal_found key socal_nets w))))%nat) ->
    forall (norcal_nets : nat -> network) (norcal_now : datetime)
           (norcal_fault : io_fault),
      fst (main key socal_nets norcal_nets socal_now norcal_now
                socal_fault norcal_fault w) = Raise OSError
      /\ (forall nets' now' fault',
            main key socal_nets norcal_nets socal_now norcal_now
                 socal_fault norcal_fault w
            = main key socal_nets nets' socal_now now' socal_fault fault' w)
      /\ (forall now',
            read_file (norcal_name now')
              (files (snd (main key socal_nets norcal_nets socal_now
                                norcal_now socal_fault norcal_fault w)))
            = read_file (norcal_name now') (files w)).
Proof.
  intros key socal_nets socal_now socal_fault w Hfault.
  set (s1 := socal_found key socal_nets w) in *.
  assert (Hfirst : fst (to_csv socal_fault (fst s1) (socal_name socal_now)
                          (snd s1)) = Raise OSError).
  { destruct Hfault as [->|(n & kept & -> & Hn)].
    - reflexivity.
    - apply to_csv_refused. exact Hn. }
  intros norcal_nets norcal_now norcal_fault.
  split; [|split].
  - rewrite main_run. cbv zeta. fold s1. rewrite Hfirst. reflexivity.
  - intros nets' now' fault'. rewrite !main_run. cbv zeta. fold s1.
    rewrite Hfirst. reflexivity.
  - intro now'. rewrite main_run. cbv zeta. fold s1. rewrite Hfirst.
    cbn [snd].
    rewrite to_csv_frame.
    + subst s1. unfold socal_found. rewrite best_flights_files. reflexivity.
    + reflexivity.
Qed.

Lemma X19_witness :
  fst (main "k" (fun _ => two_good) (fun _ => two_good) noon noon_later
            OpenFails NoFault quiet) = Raise OSError.
Proof.
  exact (proj1 (X19_failed_first_export_ends_main
                  "k" (fun _ => two_good) noon OpenFails quiet
                  (or_introl eq_refl)
                  (fun _ => two_good) noon_later NoFault)).
Defined.

(** X20.  Generate, search, export: when no search of a generated group
    finds an offer (each one fails, or succeeds with an empty list), the
    exported file holds the header row and nothing else. *)
Theorem X20_no_offers_header_only :
  forall (key : string) (nets : nat -> network)
         (us_ports japan_ports : list string) (d_from d_to : date)
         (name : string) (w : world),
    let options := all_flight_options us_ports japan_ports d_from d_to in
    let found :=
      search_and_set_best_flights key nets
        {| all_flight_plans := map fresh options |} w in
    (forall i fp infos,
       nth_error options i = Some fp ->
       succeeds key (nets i) fp infos -> infos = []) ->
    written name (snd (to_csv NoFault (fst found) name (snd found)))
    = [csv_header].
Proof.
  intros key nets us_ports japan_ports d_from d_to name w options found Hnone.
  destruct (to_csv_through name NoFault (fst found) (snd found))
    as (w' & Hrun & Hrows & _); [discriminate|reflexivity|].
  rewrite Hrun. cbn [snd]. rewrite Hrows. f_equal.
  rewrite csv_rows_by_plan. apply flat_map_all_empty.
  intros plan Hin. unfold plan_rows.
  apply In_nth_error in Hin as [i Hi].
  assert (Hlen : List.length (all_flight_plans (fst found))
                 = List.length options).
  { pose proof (f_equal (@List.length _)
                  (best_flights_plans key nets
                     {| all_flight_plans := map fresh options |} w)) as H.
    cbn [all_flight_plans] in H. rewrite !List.length_map in H. exact H. }
  assert (Hlt : (i < List.length options)%nat).
  { rewrite <- Hlen. apply nth_error_Some. congruence. }
  destruct (nth_error options i) as [fp|] eqn:Hfp;
    [|apply nth_error_None in Hfp; lia].
  assert (Hbf : nth_error (map fresh options) i = Some (fresh fp))
    by (rewrite nth_error_map, Hfp; reflexivity).
  subst found.
  rewrite (best_flights_nth key nets
             {| all_flight_plans := map fresh options |} w i (fresh fp) Hbf)
    in Hi.
  injection Hi as <-.
  unfold searched.
  destruct (search_and_set_flights_cases key (nets i) (fresh fp) quiet)
    as [(infos & Hs & _ & ->)|(_ & _ & ->)]; simpl.
  - rewrite (Hnone i fp infos Hfp Hs). reflexivity.
  - reflexivity.
Qed.

Lemma X20_witness :
  written "flights.csv"
    (snd (to_csv NoFault
            (fst (search_and_set_best_flights "k" (fun _ => unreachable)
                    {| all_flight_plans :=
                         map fresh
                           (all_flight_options ["LAX"] ["HND"; "NRT"]
                              {| year := 2024; month := 3; day := 22 |}
                              {| year := 2024; month := 4; day := 1 |}) |}
                    quiet))
            "flights.csv"
            (snd (search_and_set_best_flights "k" (fun _ => unreachable)
                    {| all_flight_plans :=
                         map fresh
                           (all_flight_options ["LAX"] ["HND"; "NRT"]
                              {| year := 2024; month := 3; day := 22 |}
                              {| year := 2024; month := 4; day := 1 |}) |}
                    quiet))))
  = [csv_header].
Proof.
  apply (X20_no_offers_header_only "k" (fun _ => unreachable)
           ["LAX"] ["HND"; "NRT"]
           {| year := 2024; month := 3; day := 22 |}
           {| year := 2024; month := 4; day := 1 |} "flights.csv" quiet).
  intros i fp infos _ (j & Hj & _). vm_compute in Hj. discriminate Hj.
Defined.

(** X21.  The searches of a batch do not interfere.  What entry [i] holds
    after the batch has been searched depends only on that entry and on the
    answers its own search met: not on the other entries' answers, and not
    on what had been printed or written before. *)
Theorem X21_searches_do_not_interfere :
  forall (key : string) (nets nets' : nat -> network)
         (batch : AllOptionsForJapan) (w w' : world) (i : nat),
    nets i = nets' i ->
    nth_error
      (all_flight_plans (fst (search_and_set_best_flights key nets batch w))) i
    = nth_error
        (all_flight_plans (fst (search_and_set_best_flights key nets' batch w'))) i.
Proof.
  intros key nets nets' batch w w' i Hi.
  destruct (nth_error (all_flight_plans batch) i) as [bf|] eqn:Hbf.
  - rewrite (best_flights_nth key nets batch w i bf Hbf).
    rewrite (best_flights_nth key nets' batch w' i bf Hbf).
    rewrite Hi. reflexivity.
  - apply nth_error_None in Hbf.
    pose proof (f_equal (@List.length _)
                  (best_flights_plans key nets batch w)) as H1.
    pose proof (f_equal (@List.length _)
                  (best_flights_plans key nets' batch w')) as H2.
    rewrite !List.length_map in H1, H2.
    transitivity (@None BestFlights); [|symmetry];
      apply nth_error_None; lia.
Qed.

Definition good_then_silence (i : nat) : network :=
  match i with
  | O => two_good
  | _ => unreachable
  end.

Lemma X21_witness :
  nth_error
    (all_flight_plans
       (fst (search_and_set_best_flights "k" good_then_silence two_entries quiet)))
    0
  = nth_error
      (all_flight_plans
         (fst (search_and_set_best_flights "k" (fun _ => two_good) two_entries
                 one_old_file)))
      0.
Proof.
  exact (X21_searches_do_not_interfere "k" good_then_silence (fun _ => two_good)
           two_entries quiet one_old_file 0 eq_refl).
Defined.
